(** * Verification development for TaxRefundStatusService

    Shallow embedding of the status/prediction service
    (service/src/db/db-service.ts, service/src/services/ml-integration.ts,
    service/src/services/prediction-service.ts,
    service/src/services/refund-status-service.ts,
    service/src/controllers/refund-status-controller.ts) and of the ML
    pipeline operations (ETL, trainer, retraining decision) whose Python
    sources are not part of the tree and are modelled from the spec. *)

From Stdlib Require Import String Ascii List Bool ZArith QArith Lia.
From Stdlib Require Import Sorting.Sorted Sorting.Permutation.
Import ListNotations.
Open Scope string_scope.

(* ------------------------------------------------------------------ *)
(** ** Row types (db-service.ts) *)

Module TaxFile.
Record t := mk {
  TaxFileID : string;
  UserID : string;
  TaxYear : Z;
  FilingType : string;
  DateOfFiling : string;
  TaxCategories : string;
  DeductionCategories : string;
  ClaimedRefundAmount : Q;
  GeographicRegion : string;
  CreatedAt : string
}.
End TaxFile.

Module TaxProcessingEvent.
Record t := mk {
  EventID : string;
  TaxFileID : string;
  OldStatus : option string;
  NewStatus : string;
  StatusDetails : string;
  StatusUpdateDate : string;
  UpdateSource : string;
  ActionRequired : option string;
  ProcessingCenter : string;
  CreatedAt : string
}.
End TaxProcessingEvent.

(** The object handed to [JSON.stringify] for the [InputFeatures] column. *)
Module InputFeatures.
Record t := mk {
  filingType : string;
  taxYear : Z;
  region : string;
  amount : Q
}.
End InputFeatures.

Module TaxRefundPrediction.
Record t := mk {
  PredictionID : string;
  TaxFileID : string;
  ConfidenceScore : Q;
  ModelVersion : string;
  PredictedAvailabilityDate : string;
  InputFeatures : InputFeatures.t;
  CreatedAt : string
}.
End TaxRefundPrediction.

(** [RefundStatus]: optional TS properties are [option]s, [None] being an
    absent property. *)
Module RefundStatus.
Record t := mk {
  status : string;
  details : option string;
  lastUpdated : string;
  actionRequired : option string;
  estimatedCompletionDays : option Q;
  estimatedCompletionDate : option string;
  refundAmount : option Q;
  depositDate : option string
}.
End RefundStatus.

(** The online SQLite database: one list per table, in insertion order. *)
Record Db := mkDb {
  TaxFiles : list TaxFile.t;
  TaxProcessingEvents : list TaxProcessingEvent.t;
  TaxRefundPredictions : list TaxRefundPrediction.t
}.

(* ------------------------------------------------------------------ *)
(** ** ML API types (ml-integration.ts) *)

Module PredictionRequest.
Record t := mk {
  filing_type : string;
  tax_year : Z;
  refund_amount : Q;
  geographic_region : string;
  processing_center : string;
  filing_period : option string;
  source_status : string;
  target_status : string
}.
End PredictionRequest.

Module PredictionResponse.
Record t := mk {
  estimated_days : Q;
  confidence_score : Q;
  predicted_date : string;
  model_version : string
}.
End PredictionResponse.

Module HealthCheckResponse.
Record t := mk {
  status : string;
  model_loaded : bool;
  model_version : string;
  latest_available : bool;
  available_versions : list string;
  timestamp : string
}.
End HealthCheckResponse.

(** What the process observes from outside the database: the ML API's
    answers ([None] is a failed or timed-out HTTP request, which axios
    turns into a rejection caught in ml-integration.ts), the clock read by
    [new Date().toISOString()] and the next [uuidv4()]. *)
Record Env := mkEnv {
  ml_health : option HealthCheckResponse.t;
  ml_predict : PredictionRequest.t -> option PredictionResponse.t;
  now : string;
  next_uuid : string
}.

(* ------------------------------------------------------------------ *)
(** ** Promises over the database: a state and exception monad *)

Inductive result (A : Type) :=
| Resolved (a : A)
| Rejected (err : string).
Arguments Resolved {A} a.
Arguments Rejected {A} err.

Definition M (A : Type) := Db -> result A * Db.

Definition ret {A} (a : A) : M A := fun db => (Resolved a, db).
Definition throw {A} (e : string) : M A := fun db => (Rejected e, db).
Definition bind {A B} (m : M A) (k : A -> M B) : M B :=
  fun db => match m db with
            | (Resolved a, db') => k a db'
            | (Rejected e, db') => (Rejected e, db')
            end.
(** [try { body } catch (e) { handler }]: state changes made before the
    throw are kept. *)
Definition try_catch {A} (body : M A) (handler : string -> M A) : M A :=
  fun db => match body db with
            | (Resolved a, db') => (Resolved a, db')
            | (Rejected e, db') => handler e db'
            end.

Notation "x <- m ;; k" := (bind m (fun x => k))
  (at level 61, m at next level, right associativity).

(* ------------------------------------------------------------------ *)
(** ** SQL ordering

    Timestamps are ISO-8601 strings (the TypeScript row types declare them
    [string]); SQLite compares such text values with the BINARY collation,
    i.e. lexicographically, a proper prefix first: [String.compare].
    [ORDER BY] is an insertion sort on that order. *)

Definition date_le (a b : string) : bool := String.leb a b.

(** [ORDER BY] as a stable insertion sort: [before a b] when [a] may be
    placed ahead of [b]. *)
Fixpoint insert_by (before : TaxProcessingEvent.t -> TaxProcessingEvent.t -> bool)
    (e : TaxProcessingEvent.t) (l : list TaxProcessingEvent.t) :=
  match l with
  | [] => [e]
  | x :: r => if before e x then e :: x :: r else x :: insert_by before e r
  end.

Fixpoint sort_by (before : TaxProcessingEvent.t -> TaxProcessingEvent.t -> bool)
    (l : list TaxProcessingEvent.t) :=
  match l with [] => [] | x :: r => insert_by before x (sort_by before r) end.

(** [ORDER BY StatusUpdateDate ASC] *)
Definition asc (a b : TaxProcessingEvent.t) : bool :=
  date_le (TaxProcessingEvent.StatusUpdateDate a) (TaxProcessingEvent.StatusUpdateDate b).

(** [ORDER BY StatusUpdateDate DESC] *)
Definition desc (a b : TaxProcessingEvent.t) : bool :=
  date_le (TaxProcessingEvent.StatusUpdateDate b) (TaxProcessingEvent.StatusUpdateDate a).

Definition sort_asc := sort_by asc.
Definition sort_desc := sort_by desc.

Definition events_of (db : Db) (taxFileId : string) :=
  filter (fun e => String.eqb (TaxProcessingEvent.TaxFileID e) taxFileId)
         (TaxProcessingEvents db).

(* ------------------------------------------------------------------ *)
(** ** DbService (db-service.ts) *)

(** [SELECT * FROM TaxFiles WHERE TaxFileID = ?] through [db.get]. *)
Definition lookup_tax_file (db : Db) (taxFileId : string) : option TaxFile.t :=
  find (fun f => String.eqb (TaxFile.TaxFileID f) taxFileId) (TaxFiles db).

Definition getTaxFileById (taxFileId : string) : M (option TaxFile.t) :=
  fun db => (Resolved (lookup_tax_file db taxFileId), db).

(** [... WHERE TaxFileID = ? ORDER BY StatusUpdateDate DESC LIMIT 1]. *)
Definition latest_event (db : Db) (taxFileId : string) : option TaxProcessingEvent.t :=
  hd_error (sort_desc (events_of db taxFileId)).

Definition getLatestTaxProcessingEvent (taxFileId : string)
  : M (option TaxProcessingEvent.t) :=
  fun db => (Resolved (latest_event db taxFileId), db).

(** [... WHERE TaxFileID = ? ORDER BY StatusUpdateDate ASC]. *)
Definition getTaxProcessingEvents (taxFileId : string)
  : M (list TaxProcessingEvent.t) :=
  fun db => (Resolved (sort_asc (events_of db taxFileId)), db).

(** [createTaxRefundPrediction]: inserts one row with a fresh uuid, the
    constant model version ['v1.0'] and the current time; the INSERT fails
    on a duplicate primary key. *)
Definition createTaxRefundPrediction (env : Env) (taxFileId : string)
    (confidenceScore : Q) (predictedAvailabilityDate : string)
    (inputFeatures : InputFeatures.t) : M TaxRefundPrediction.t :=
  fun db =>
    let predictionId := next_uuid env in
    let modelVersion := "v1.0" in
    let createdAt := now env in
    if existsb (fun p => String.eqb (TaxRefundPrediction.PredictionID p) predictionId)
               (TaxRefundPredictions db)
    then (Rejected "SQLITE_CONSTRAINT: UNIQUE constraint failed", db)
    else
      let prediction := TaxRefundPrediction.mk predictionId taxFileId confidenceScore
                          modelVersion predictedAvailabilityDate inputFeatures createdAt in
      (Resolved prediction,
       mkDb (TaxFiles db) (TaxProcessingEvents db)
            (TaxRefundPredictions db ++ [prediction])).

(* ------------------------------------------------------------------ *)
(** ** MLIntegration (ml-integration.ts) *)

(** [response.data.status === 'ok'], [false] when the request fails. *)
Definition checkMLApiHealth (env : Env) : bool :=
  match ml_health env with
  | Some r => String.eqb (HealthCheckResponse.status r) "ok"
  | None => false
  end.

Definition getPrediction (env : Env) (filingType : string) (taxYear : Z)
    (refundAmount : Q) (geographicRegion processingCenter : string)
    (filingPeriod : option string) : option PredictionResponse.t :=
  ml_predict env (PredictionRequest.mk filingType taxYear refundAmount
                    geographicRegion processingCenter filingPeriod
                    "Processing" "Approved").

(* ------------------------------------------------------------------ *)
(** ** PredictionService (prediction-service.ts) *)

Module PredictionResult.
Record t := mk {
  estimatedDays : Q;
  confidenceScore : Q;
  predictedDate : string
}.
End PredictionResult.

(** JS values and property access [obj[name]] on a [PredictionResult]
    object literal: [None] is [undefined]. *)
Inductive jsval := JNum (q : Q) | JStr (s : string).

Definition prop_get (r : PredictionResult.t) (name : string) : option jsval :=
  if String.eqb name "estimatedDays" then Some (JNum (PredictionResult.estimatedDays r))
  else if String.eqb name "confidenceScore" then Some (JNum (PredictionResult.confidenceScore r))
  else if String.eqb name "predictedDate" then Some (JStr (PredictionResult.predictedDate r))
  else None.

(** [latestEvent.ProcessingCenter || 'Unknown'] *)
Definition center_or_unknown (c : string) : string :=
  if String.eqb c "" then "Unknown" else c.

Definition input_features_of (taxFile : TaxFile.t) : InputFeatures.t :=
  InputFeatures.mk (TaxFile.FilingType taxFile) (TaxFile.TaxYear taxFile)
                   (TaxFile.GeographicRegion taxFile) (TaxFile.ClaimedRefundAmount taxFile).

(** The payload [getPrediction] posts for a file and its latest event. *)
Definition prediction_payload (taxFile : TaxFile.t) (ev : TaxProcessingEvent.t)
  : PredictionRequest.t :=
  PredictionRequest.mk (TaxFile.FilingType taxFile) (TaxFile.TaxYear taxFile)
    (TaxFile.ClaimedRefundAmount taxFile) (TaxFile.GeographicRegion taxFile)
    (center_or_unknown (TaxProcessingEvent.ProcessingCenter ev)) None
    "Processing" "Approved".

Definition predictRefundAvailability (env : Env) (taxFileId : string)
  : M (option PredictionResult.t) :=
  try_catch
    (taxFile <- getTaxFileById taxFileId ;;
     match taxFile with
     | None => throw ("Tax file not found: " ++ taxFileId)
     | Some taxFile =>
       latestEvent <- getLatestTaxProcessingEvent taxFileId ;;
       match latestEvent with
       | None => ret None
       | Some latestEvent =>
         if negb (String.eqb (TaxProcessingEvent.NewStatus latestEvent) "Processing")
         then ret None
         else if negb (checkMLApiHealth env) then ret None
         else
           match getPrediction env (TaxFile.FilingType taxFile) (TaxFile.TaxYear taxFile)
                   (TaxFile.ClaimedRefundAmount taxFile) (TaxFile.GeographicRegion taxFile)
                   (center_or_unknown (TaxProcessingEvent.ProcessingCenter latestEvent))
                   None with
           | None => ret None
           | Some mlPrediction =>
             let result := PredictionResult.mk
                             (PredictionResponse.estimated_days mlPrediction)
                             (PredictionResponse.confidence_score mlPrediction)
                             (PredictionResponse.predicted_date mlPrediction) in
             let inputFeatures := input_features_of taxFile in
             _ <- createTaxRefundPrediction env taxFileId
                    (PredictionResult.confidenceScore result)
                    (PredictionResult.predictedDate result) inputFeatures ;;
             ret (Some result)
           end
       end
     end)
    (fun _ => ret None).

(* ------------------------------------------------------------------ *)
(** ** RefundStatusService (refund-status-service.ts) *)

(** [s.split(c)[0]]: the text before the first [c], or all of [s]. *)
Fixpoint split_first (c : ascii) (s : string) : string :=
  match s with
  | EmptyString => EmptyString
  | String x r => if Ascii.eqb x c then EmptyString else String x (split_first c r)
  end.

Definition base_status (ev : TaxProcessingEvent.t) : RefundStatus.t :=
  RefundStatus.mk (TaxProcessingEvent.NewStatus ev)
    (Some (TaxProcessingEvent.StatusDetails ev))
    (TaxProcessingEvent.StatusUpdateDate ev)
    (TaxProcessingEvent.ActionRequired ev)
    None None None None.

Definition with_estimate (s : RefundStatus.t) (p : PredictionResult.t) : RefundStatus.t :=
  RefundStatus.mk (RefundStatus.status s) (RefundStatus.details s)
    (RefundStatus.lastUpdated s) (RefundStatus.actionRequired s)
    (Some (PredictionResult.estimatedDays p)) (Some (PredictionResult.predictedDate p))
    (RefundStatus.refundAmount s) (RefundStatus.depositDate s).

Definition with_deposit (s : RefundStatus.t) (amount : Q) (date : string) : RefundStatus.t :=
  RefundStatus.mk (RefundStatus.status s) (RefundStatus.details s)
    (RefundStatus.lastUpdated s) (RefundStatus.actionRequired s)
    (RefundStatus.estimatedCompletionDays s) (RefundStatus.estimatedCompletionDate s)
    (Some amount) (Some date).

Definition getRefundStatus (env : Env) (taxFileId : string) : M (option RefundStatus.t) :=
  try_catch
    (taxFile <- getTaxFileById taxFileId ;;
     match taxFile with
     | None => ret None
     | Some taxFile =>
       latestEvent <- getLatestTaxProcessingEvent taxFileId ;;
       match latestEvent with
       | None =>
         ret (Some (RefundStatus.mk "Not Found"
                      (Some "No processing events found for this tax filing.")
                      (now env) None None None None None))
       | Some latestEvent =>
         let status := base_status latestEvent in
         let s := TaxProcessingEvent.NewStatus latestEvent in
         if String.eqb s "Processing" then
           prediction <- predictRefundAvailability env taxFileId ;;
           match prediction with
           | Some p => ret (Some (with_estimate status p))
           | None => ret (Some status)
           end
         else if String.eqb s "Approved" then
           ret (Some (with_deposit status (TaxFile.ClaimedRefundAmount taxFile)
                        (split_first "T" (TaxProcessingEvent.StatusUpdateDate latestEvent))))
         else ret (Some status)
       end
     end)
    (fun _ => ret None).

Definition getRefundStatusHistory (taxFileId : string) : M (list TaxProcessingEvent.t) :=
  try_catch (getTaxProcessingEvents taxFileId) (fun _ => ret []).

(* ------------------------------------------------------------------ *)
(** ** Further DbService queries (db-service.ts) *)

Module User.
Record t := mk {
  UserID : string;
  CreatedAt : string;
  UpdatedAt : string
}.
End User.

Module IRSTransitionEstimate.
Record t := mk {
  EstimateID : string;
  SourceStatus : string;
  TargetStatus : string;
  FilingType : string;
  TaxYear : Z;
  TaxCategories : string;
  DeductionCategories : string;
  RefundAmountBucket : string;
  GeographicRegion : string;
  ProcessingCenter : string;
  FilingPeriod : string;
  AvgTransitionDays : Q;
  MedianTransitionDays : Q;
  P25TransitionDays : Q;
  P75TransitionDays : Q;
  MinTransitionDays : Q;
  MaxTransitionDays : Q;
  SampleSize : Q;
  SuccessRate : Q;
  ComputationDate : string;
  DataPeriodStart : string;
  DataPeriodEnd : string;
  ETLJobID : string;
  DataQualityScore : Q;
  CreatedAt : string
}.
End IRSTransitionEstimate.

(** The service never writes the [Users] and [IRSTransitionEstimates]
    tables; the queries on them take their rows beside the [Db] state. *)

(** [ORDER BY] on rows of any table, as the stable insertion sort above. *)
Fixpoint insert_row {A} (before : A -> A -> bool) (x : A) (l : list A) : list A :=
  match l with
  | [] => [x]
  | y :: r => if before x y then x :: y :: r else y :: insert_row before x r
  end.

Fixpoint sort_rows {A} (before : A -> A -> bool) (l : list A) : list A :=
  match l with [] => [] | x :: r => insert_row before x (sort_rows before r) end.

(** [SELECT * FROM Users WHERE UserID = ?] through [db.get]. *)
Definition lookup_user (users : list User.t) (userId : string) : option User.t :=
  find (fun u => String.eqb (User.UserID u) userId) users.

(** The [Users] table as [db.get] reaches it: its rows, or the error the
    query reports (for instance when the table does not exist), which
    rejects the promise. *)
Definition getUserById (users : result (list User.t)) (userId : string)
  : M (option User.t) :=
  fun db => match users with
            | Resolved rows => (Resolved (lookup_user rows userId), db)
            | Rejected err => (Rejected err, db)
            end.

(** [ORDER BY TaxYear DESC, DateOfFiling DESC] *)
Definition year_date_desc (a b : TaxFile.t) : bool :=
  Z.ltb (TaxFile.TaxYear b) (TaxFile.TaxYear a)
  || (Z.eqb (TaxFile.TaxYear a) (TaxFile.TaxYear b)
      && date_le (TaxFile.DateOfFiling b) (TaxFile.DateOfFiling a)).

Definition files_of_user (db : Db) (userId : string) : list TaxFile.t :=
  filter (fun f => String.eqb (TaxFile.UserID f) userId) (TaxFiles db).

(** [SELECT * FROM TaxFiles WHERE UserID = ?
    ORDER BY TaxYear DESC, DateOfFiling DESC] through [db.all]. *)
Definition getTaxFilesByUserId (userId : string) : M (list TaxFile.t) :=
  fun db => (Resolved (sort_rows year_date_desc (files_of_user db userId)), db).

(** [ORDER BY CreatedAt DESC] *)
Definition created_desc (a b : TaxRefundPrediction.t) : bool :=
  date_le (TaxRefundPrediction.CreatedAt b) (TaxRefundPrediction.CreatedAt a).

Definition predictions_of (db : Db) (taxFileId : string) : list TaxRefundPrediction.t :=
  filter (fun p => String.eqb (TaxRefundPrediction.TaxFileID p) taxFileId)
         (TaxRefundPredictions db).

(** [... TaxRefundPredictions WHERE TaxFileID = ? ORDER BY CreatedAt DESC
    LIMIT 1]. *)
Definition latest_prediction (db : Db) (taxFileId : string)
  : option TaxRefundPrediction.t :=
  hd_error (sort_rows created_desc (predictions_of db taxFileId)).

Definition getLatestTaxRefundPrediction (taxFileId : string)
  : M (option TaxRefundPrediction.t) :=
  fun db => (Resolved (latest_prediction db taxFileId), db).



(** [RefundStatusService.getTaxFilings] *)
Definition getTaxFilings (userId : string) : M (list TaxFile.t) :=
  try_catch (getTaxFilesByUserId userId) (fun _ => ret []).

(* ------------------------------------------------------------------ *)
(** ** ActionGuidanceService interface (action-guidance-service.ts) *)

Module UserContext.
Record t := mk {
  filingHistory : option string;
  region : option string;
  complexityLevel : option string
}.
End UserContext.

Module ActionGuidanceRequest.
Record t := mk {
  actionCode : string;
  taxFileId : string;
  userContext : option UserContext.t
}.
End ActionGuidanceRequest.

Module ActionGuidanceResponse.
Record t := mk {
  explanation : string;
  steps : list string;
  estimatedResolutionDays : Q;
  resources : list string
}.
End ActionGuidanceResponse.

(** The guidance service queries Bedrock; [None] is its rejection
    (['Failed to generate action guidance: ...']). *)
Definition GuidanceService := ActionGuidanceRequest.t -> option ActionGuidanceResponse.t.

(* ------------------------------------------------------------------ *)
(** ** RefundStatusController (refund-status-controller.ts) *)

(** The JSON bodies the handlers send. *)
Inductive Body :=
| ErrorBody (error : string)
| StatusBody (status : RefundStatus.t)
| HistoryBody (history : list TaxProcessingEvent.t)
| FilingsBody (filings : list TaxFile.t)
| GuidanceBody (guidance : ActionGuidanceResponse.t).

(** [res.status(code).json(body)] *)
Record Response := mkResponse {
  code : Z;
  body : Body
}.

Definition respond (c : Z) (b : Body) : M Response := ret (mkResponse c b).

Definition internal_error (_ : string) : M Response :=
  respond 500 (ErrorBody "Internal server error").

(** [!s] for a string: only [''] is falsy. *)
Definition falsy (s : string) : bool := String.eqb s "".

(** [!status.actionRequired]: [null] and [''] are falsy. *)
Definition action_code (a : option string) : option string :=
  match a with
  | Some c => if falsy c then None else Some c
  | None => None
  end.

(** The handlers keep the controller's method names; inside this module
    each body calls the service function of the same name, which is why
    [getActionGuidance] precedes the handler [getRefundStatus]. *)
Module RefundStatusController.

Definition getActionGuidance (env : Env) (guide : GuidanceService) (taxFileId : string)
    (userContext : option UserContext.t) : M Response :=
  try_catch
    (if falsy taxFileId then respond 400 (ErrorBody "Tax file ID is required")
     else
       status <- getRefundStatus env taxFileId ;;
       match status with
       | None => respond 404 (ErrorBody "Tax filing not found")
       | Some status =>
         match (if String.eqb (RefundStatus.status status) "Needs Action"
                then action_code (RefundStatus.actionRequired status) else None) with
         | None =>
           respond 400 (ErrorBody "This tax filing does not require action or has no action code")
         | Some actionCode =>
           actionGuidance <-
             (match guide (ActionGuidanceRequest.mk actionCode taxFileId userContext) with
              | Some g => ret g
              | None => throw "Failed to generate action guidance"
              end) ;;
           respond 200 (GuidanceBody actionGuidance)
         end
       end)
    internal_error.

Definition getRefundStatus (env : Env) (taxFileId : string) : M Response :=
  try_catch
    (if falsy taxFileId then respond 400 (ErrorBody "Tax file ID is required")
     else
       status <- getRefundStatus env taxFileId ;;
       match status with
       | None => respond 404 (ErrorBody "Tax filing not found")
       | Some status => respond 200 (StatusBody status)
       end)
    internal_error.

Definition getRefundStatusHistory (taxFileId : string) : M Response :=
  try_catch
    (if falsy taxFileId then respond 400 (ErrorBody "Tax file ID is required")
     else
       history <- getRefundStatusHistory taxFileId ;;
       respond 200 (HistoryBody history))
    internal_error.

Definition getTaxFilings (users : result (list User.t)) (userId : string) : M Response :=
  try_catch
    (if falsy userId then respond 400 (ErrorBody "User ID is required")
     else
       user <- getUserById users userId ;;
       match user with
       | None => respond 404 (ErrorBody "User not found")
       | Some _ =>
         filings <- getTaxFilings userId ;;
         respond 200 (FilingsBody filings)
       end)
    internal_error.

End RefundStatusController.

(* ------------------------------------------------------------------ *)
(** ** ModelTrainer: versioned artifacts (MLModels table) *)

Module Trainer.

(** A row of [MLModels]: [ModelVersion] as a number, [IsActive]. *)
Record ModelArtifact := mkArtifact {
  version : nat;
  active : bool;
  training_size : nat
}.

Definition Store := list ModelArtifact.

Inductive TrainError := InsufficientTrainingData | TrainingDivergent.

Definition MIN_TRAINING_ROWS : nat := 20%nat.
Definition ERROR_CEILING : Q := 60.

Definition active_version (s : Store) : option nat :=
  option_map version (find active s).

Definition deactivate (a : ModelArtifact) : ModelArtifact :=
  mkArtifact (version a) false (training_size a).

Definition count_active (s : Store) : nat := length (filter active s).

(** Modelled from the spec: [train(etlJobId)] (the Python trainer is not in
    the tree). It fails with [InsufficientTrainingData] below the minimum
    row count and with [TrainingDivergent] above the cross-validated error
    ceiling; otherwise it writes one artifact whose version is one greater
    than the active version (1 if none), deactivating the previous active
    artifact in the same write. *)
Definition train (trainingRows : nat) (cvError : Q) (s : Store) : TrainError + Store :=
  if Nat.ltb trainingRows MIN_TRAINING_ROWS then inl InsufficientTrainingData
  else if Qle_bool cvError ERROR_CEILING then
    let v := match active_version s with Some v => S v | None => 1%nat end in
    inr (map deactivate s ++ [mkArtifact v true trainingRows])%list
  else inl TrainingDivergent.

(** [cleanup_models.sh]: [DELETE FROM MLModels]. *)
Definition wipe (s : Store) : Store := [].

(** Stores the trainer and the clean-up script can produce. *)
Inductive reachable : Store -> Prop :=
| reach_empty : reachable []
| reach_train s rows err s' :
    reachable s -> train rows err s = inr s' -> reachable s'
| reach_wipe s : reachable s -> reachable (wipe s).

(** The trainer's store invariant: empty, or an active artifact whose
    version bounds every version. *)
Definition inv (s : Store) : Prop :=
  s = [] \/ exists v, active_version s = Some v /\ Forall (fun b => (version b <= v)%nat) s.

End Trainer.

(* ------------------------------------------------------------------ *)
(** ** ETL: extract and transform *)

Module Etl.
Local Open Scope Z_scope.

(** A processing event as the ETL reads it: days are counted from a fixed
    epoch, [CreatedAt] orders duplicate entries. *)
Record RawEvent := mkRawEvent {
  ev_filing : string;
  ev_status : string;
  ev_day : Z;
  ev_created : Z
}.

Record RawTransitionRecord := mkRecord {
  TaxFileID : string;
  SourceStatus : string;
  TargetStatus : string;
  SourceDay : Z;
  ActualTransitionDays : Z
}.

Inductive Partition := training | validation | test.

Record TrainingExample := mkExample {
  ex_record : RawTransitionRecord;
  ex_label : Z;
  DataPartition : Partition;
  ETLJobID : string
}.

Fixpoint insert_day (e : RawEvent) (l : list RawEvent) : list RawEvent :=
  match l with
  | [] => [e]
  | x :: r => if Z.leb (ev_day e) (ev_day x) then e :: x :: r else x :: insert_day e r
  end.

Fixpoint sort_day (l : list RawEvent) : list RawEvent :=
  match l with [] => [] | x :: r => insert_day x (sort_day r) end.

(** Adjacent entries of one day collapse to the one with the latest
    [CreatedAt]. *)
Definition later_created (x y : RawEvent) : RawEvent :=
  if Z.ltb (ev_created x) (ev_created y) then y else x.

Fixpoint dedup_from (cur : RawEvent) (rest : list RawEvent) : list RawEvent :=
  match rest with
  | [] => [cur]
  | y :: r =>
      if Z.eqb (ev_day cur) (ev_day y) then dedup_from (later_created cur y) r
      else cur :: dedup_from y r
  end.

Definition dedup_day (l : list RawEvent) : list RawEvent :=
  match l with [] => [] | x :: r => dedup_from x r end.

Fixpoint pairs (l : list RawEvent) : list RawTransitionRecord :=
  match l with
  | x :: ((y :: _) as tl) =>
      mkRecord (ev_filing x) (ev_status x) (ev_status y) (ev_day x) (ev_day y - ev_day x)
      :: pairs tl
  | _ => []
  end.

Definition in_window (windowStart windowEnd : Z) (e : RawEvent) : bool :=
  Z.leb windowStart (ev_day e) && Z.ltb (ev_day e) windowEnd.

(** The distinct status events of one filing inside the window, ordered
    by status-update time. *)
Definition window_events (windowStart windowEnd : Z) (events : list RawEvent)
    (filing : string) : list RawEvent :=
  filter (fun e => String.eqb (ev_filing e) filing && in_window windowStart windowEnd e)
         events.

Definition filing_events (windowStart windowEnd : Z) (events : list RawEvent)
    (filing : string) : list RawEvent :=
  dedup_day (sort_day (window_events windowStart windowEnd events filing)).

(** Modelled from the spec: [extract(windowStart, windowEnd)] (the Python
    ETL is not in the tree): window filter, sort by status-update time,
    de-duplication of same-day entries by latest [CreatedAt], then one
    record per consecutive pair. *)
Definition extract (windowStart windowEnd : Z) (filings : list string)
    (events : list RawEvent) : list RawTransitionRecord :=
  flat_map (fun f => pairs (filing_events windowStart windowEnd events f)) filings.

(** Record identity as a list of numbers: the characters of the filing id
    and of the two statuses, separated by [-1], then the source day. *)
Definition codes (s : string) : list Z :=
  map (fun c => Z.of_nat (nat_of_ascii c)) (list_ascii_of_string s).

Definition record_key (r : RawTransitionRecord) : list Z :=
  (codes (TaxFileID r) ++ [(-1)%Z] ++ codes (SourceStatus r) ++ [(-1)%Z]
   ++ codes (TargetStatus r) ++ [(-1)%Z; SourceDay r])%list.

(** A 32-bit multiplicative hash. *)
Definition hash (xs : list Z) : Z :=
  fold_left (fun h x => Z.modulo (h * 31 + x) 4294967296) xs 7.

(** Modelled from the spec: the 70/15/15 split keyed by a hash of the job
    id and the record identity. *)
Definition partition_of (etlJobId : string) (r : RawTransitionRecord) : Partition :=
  let b := Z.modulo (hash (codes etlJobId ++ [(-2)%Z] ++ record_key r)%list) 100 in
  if Z.ltb b 70 then training else if Z.ltb b 85 then validation else test.

(** Modelled from the spec: [transform] builds one example per record,
    labelled with [ActualTransitionDays]. *)
Definition transform (etlJobId : string) (records : list RawTransitionRecord)
  : list TrainingExample :=
  map (fun r => mkExample r (ActualTransitionDays r) (partition_of etlJobId r) etlJobId)
      records.

(** The scenario of the spec: one filing, Submitted, then Processing 5
    days later, then Approved 21 days after that. *)
Definition scenario_events : list RawEvent :=
  [mkRawEvent "f1" "Approved" 26 3; mkRawEvent "f1" "Submitted" 0 1;
   mkRawEvent "f1" "Processing" 5 2].

(** The partition each record of a run was assigned. *)
Definition assignments (etlJobId : string) (records : list RawTransitionRecord)
  : list (RawTransitionRecord * Partition) :=
  map (fun ex => (ex_record ex, DataPartition ex)) (transform etlJobId records).

End Etl.

(* ------------------------------------------------------------------ *)
(** ** RetrainingDecisionEngine *)

Module Retraining.
Local Open Scope Z_scope.

Record RetrainingDecision := mkDecision {
  ScheduleBasedRetraining : bool;
  PerformanceBasedRetraining : bool;
  DriftBasedRetraining : bool;
  RetrainingRecommended : bool;
  RecommendationReason : string
}.

Definition SCHEDULE_REASON := "Scheduled retraining interval exceeded".
Definition PERFORMANCE_REASON := "Model performance below threshold".
Definition DRIFT_REASON := "Feature drift detected".

Definition reason_if (b : bool) (r : string) : list string := if b then [r] else [].

Definition reasons (schedule performance drift : bool) : list string :=
  (reason_if schedule SCHEDULE_REASON ++ reason_if performance PERFORMANCE_REASON
   ++ reason_if drift DRIFT_REASON)%list.

(** Modelled from the spec: [decide] over the three trigger flags; the
    recommendation is their disjunction and every true trigger contributes
    its own reason. *)
Definition decide (schedule performance drift : bool) : RetrainingDecision :=
  mkDecision schedule performance drift (schedule || performance || drift)
    (String.concat "; " (reasons schedule performance drift)).

(** The triggers from the monitored quantities (spec section 4.6). *)
Definition schedule_trigger (daysSinceTraining : Z) : bool := Z.ltb 30 daysSinceTraining.
Definition performance_trigger (accuracyWithin7 : Q) (worsening : bool) : bool :=
  negb (Qle_bool (70 # 100) accuracyWithin7) || worsening.

Definition decide_from (daysSinceTraining : Z) (accuracyWithin7 : Q) (worsening : bool)
    (driftDetected : bool) : RetrainingDecision :=
  decide (schedule_trigger daysSinceTraining)
         (performance_trigger accuracyWithin7 worsening) driftDetected.

End Retraining.

(* ------------------------------------------------------------------ *)
(** ** Auxiliary definitions for the statements *)

(** The conditions under which [predictRefundAvailability] may produce a
    prediction. *)
Definition prediction_preconditions (env : Env) (db : Db) (taxFileId : string) : Prop :=
  exists taxFile latest p,
    lookup_tax_file db taxFileId = Some taxFile /\
    latest_event db taxFileId = Some latest /\
    TaxProcessingEvent.NewStatus latest = "Processing" /\
    checkMLApiHealth env = true /\
    ml_predict env (prediction_payload taxFile latest) = Some p.

Definition fst_resolved_default {A} (x : result (list A) * Db) : list A :=
  match fst x with Resolved l => l | Rejected _ => [] end.

Definition contains (needle hay : string) : Prop :=
  exists pre post, hay = (pre ++ needle ++ post)%string.

(* ------------------------------------------------------------------ *)
(** ** Sample data (the shape of db/sample_data.sql) *)

Definition tf1 : TaxFile.t :=
  TaxFile.mk "tf-001" "user-001" 2024 "Individual" "2025-02-01" "{}" "{}"
             (2500 # 1) "Northeast" "2025-02-01T00:00:00Z".

Definition ev (id st date : string) : TaxProcessingEvent.t :=
  TaxProcessingEvent.mk id "tf-001" None st "details" date "IRS" None "Austin" date.

Definition db_processing : Db :=
  mkDb [tf1] [ev "e2" "Processing" "2025-02-05T10:00:00Z";
              ev "e1" "Submitted" "2025-02-01T09:00:00Z"] [].

Definition db_approved : Db :=
  mkDb [tf1] [ev "e3" "Approved" "2025-02-26T12:00:00Z";
              ev "e1" "Submitted" "2025-02-01T09:00:00Z";
              ev "e2" "Processing" "2025-02-05T10:00:00Z"] [].

Definition health_ok : HealthCheckResponse.t :=
  HealthCheckResponse.mk "ok" true "v5" true ["v5"] "2025-02-10T00:00:00Z".

Definition response_v5 : PredictionResponse.t :=
  PredictionResponse.mk 14 (85 # 100) "2025-02-24" "v5".

Definition env_up : Env :=
  mkEnv (Some health_ok) (fun _ => Some response_v5) "2025-02-10T00:00:00Z" "uuid-1".

Definition env_down : Env :=
  mkEnv None (fun _ => None) "2025-02-10T00:00:00Z" "uuid-1".

Definition scenario_records : list Etl.RawTransitionRecord :=
  Etl.extract 0 100 ["f1"] Etl.scenario_events.

Definition users : result (list User.t) :=
  Resolved [User.mk "user-001" "2025-01-01T00:00:00Z" "2025-01-01T00:00:00Z"].

(** A database without a [Users] table. *)
Definition users_missing : result (list User.t) :=
  Rejected "SQLITE_ERROR: no such table: Users".

(** An ML API answer with fractional days and a confidence above 1. *)
Definition response_unchecked : PredictionResponse.t :=
  PredictionResponse.mk (25 # 2) (3 # 2) "2025-02-24" "v5".

Definition env_unchecked : Env :=
  mkEnv (Some health_ok) (fun _ => Some response_unchecked) "2025-02-10T00:00:00Z" "uuid-1".

Definition tf2 : TaxFile.t :=
  TaxFile.mk "tf-002" "user-001" 2023 "Individual" "2024-03-15" "{}" "{}"
             (1800 # 1) "Northeast" "2024-03-15T00:00:00Z".

Definition tf3 : TaxFile.t :=
  TaxFile.mk "tf-003" "user-002" 2024 "Joint" "2025-02-03" "{}" "{}"
             (3100 # 1) "West" "2025-02-03T00:00:00Z".

Definition db_files : Db := mkDb [tf2; tf3; tf1] [] [].

(** An earlier prediction for [tf-001]. *)
Definition pred_old : TaxRefundPrediction.t :=
  TaxRefundPrediction.mk "uuid-0" "tf-001" (80 # 100) "v1.0" "2025-02-20"
    (input_features_of tf1) "2025-02-06T00:00:00Z".

Definition db_processing_predicted : Db :=
  mkDb [tf1] (TaxProcessingEvents db_processing) [pred_old].

(** A stored prediction whose id is the next uuid [env_up] draws. *)
Definition db_processing_dup : Db :=
  mkDb [tf1] (TaxProcessingEvents db_processing)
       [TaxRefundPrediction.mk "uuid-1" "tf-001" (80 # 100) "v1.0" "2025-02-20"
          (input_features_of tf1) "2025-02-06T00:00:00Z"].

Definition ev_needs_action : TaxProcessingEvent.t :=
  TaxProcessingEvent.mk "e4" "tf-001" (Some "Processing") "Needs Action" "details"
    "2025-02-12T08:00:00Z" "IRS" (Some "CP05") "Austin" "2025-02-12T08:00:00Z".

Definition db_needs_action : Db :=
  mkDb [tf1] [ev "e1" "Submitted" "2025-02-01T09:00:00Z"; ev_needs_action] [].

Definition db_no_events : Db := mkDb [tf1] [] [].

Definition guidance_sample : ActionGuidanceResponse.t :=
  ActionGuidanceResponse.mk "explanation" ["step"] 30 ["https://www.irs.gov"].

Definition guide_ok : GuidanceService := fun _ => Some guidance_sample.
Definition guide_down : GuidanceService := fun _ => None.

Definition estimates_sample : list IRSTransitionEstimate.t :=
  [IRSTransitionEstimate.mk "est-1" "Processing" "Approved" "Individual" 2024 "{}" "{}"
     "1000-5000" "Northeast" "Austin" "Q1" 18 17 12 22 7 35 120 (95 # 100)
     "2025-01-31" "2024-01-01" "2024-12-31" "etl-1" (9 # 10) "2025-01-31T00:00:00Z"].

Example predict_up_example :
  fst (predictRefundAvailability env_up "tf-001" db_processing)
  = Resolved (Some (PredictionResult.mk 14 (85 # 100) "2025-02-24")).
Proof. reflexivity. Qed.

Example predict_down_example :
  predictRefundAvailability env_down "tf-001" db_processing = (Resolved None, db_processing).
Proof. reflexivity. Qed.

Example status_approved_example :
  fst (getRefundStatus env_up "tf-001" db_approved)
  = Resolved (Some (RefundStatus.mk "Approved" (Some "details") "2025-02-26T12:00:00Z" None
                      None None (Some (2500 # 1)) (Some "2025-02-26"))).
Proof. reflexivity. Qed.

(* ------------------------------------------------------------------ *)
(** ** Proofs about PredictionService *)

Lemma getPrediction_payload env taxFile latest :
  getPrediction env (TaxFile.FilingType taxFile) (TaxFile.TaxYear taxFile)
    (TaxFile.ClaimedRefundAmount taxFile) (TaxFile.GeographicRegion taxFile)
    (center_or_unknown (TaxProcessingEvent.ProcessingCenter latest)) None
  = ml_predict env (prediction_payload taxFile latest).
Proof. reflexivity. Qed.

(** Unfolding [predictRefundAvailability] once the file and its latest
    event are known and the event is ['Processing']. *)
Lemma predict_processing_unfold env db taxFileId taxFile latest :
  lookup_tax_file db taxFileId = Some taxFile ->
  latest_event db taxFileId = Some latest ->
  TaxProcessingEvent.NewStatus latest = "Processing" ->
  predictRefundAvailability env taxFileId db =
  if negb (checkMLApiHealth env) then (Resolved None, db)
  else match ml_predict env (prediction_payload taxFile latest) with
       | None => (Resolved None, db)
       | Some p =>
         try_catch
           (_ <- createTaxRefundPrediction env taxFileId
                   (PredictionResponse.confidence_score p)
                   (PredictionResponse.predicted_date p) (input_features_of taxFile) ;;
            ret (Some (PredictionResult.mk (PredictionResponse.estimated_days p)
                         (PredictionResponse.confidence_score p)
                         (PredictionResponse.predicted_date p))))
           (fun _ => ret None) db
       end.
Proof.
  intros Hf Hl Hs.
  unfold predictRefundAvailability, try_catch, bind, getTaxFileById,
    getLatestTaxProcessingEvent.
  rewrite Hf, Hl, Hs. cbn [String.eqb Ascii.eqb Bool.eqb negb andb].
  rewrite getPrediction_payload.
  destruct (checkMLApiHealth env); [|reflexivity].
  destruct (ml_predict env (prediction_payload taxFile latest)); reflexivity.
Qed.

(** C1: for a file whose latest event is ['Processing'], when the ML API's
    health check fails or its prediction call returns nothing,
    [predictRefundAvailability] resolves to [null] and leaves the database
    untouched: no default numeric estimate is produced or stored. *)
Theorem predict_without_model_is_null (env : Env) (db : Db) (taxFileId : string)
    (taxFile : TaxFile.t) (latest : TaxProcessingEvent.t) :
  lookup_tax_file db taxFileId = Some taxFile ->
  latest_event db taxFileId = Some latest ->
  TaxProcessingEvent.NewStatus latest = "Processing" ->
  checkMLApiHealth env = false \/ ml_predict env (prediction_payload taxFile latest) = None ->
  predictRefundAvailability env taxFileId db = (Resolved None, db).
Proof.
  intros Hf Hl Hs Hno.
  rewrite (predict_processing_unfold env db taxFileId taxFile latest Hf Hl Hs).
  destruct Hno as [Hh | Hp].
  - rewrite Hh. reflexivity.
  - rewrite Hp. destruct (checkMLApiHealth env); reflexivity.
Qed.

Lemma predict_without_model_is_null_witness :
  lookup_tax_file db_processing "tf-001" = Some tf1 /\
  latest_event db_processing "tf-001"
    = Some (ev "e2" "Processing" "2025-02-05T10:00:00Z") /\
  predictRefundAvailability env_down "tf-001" db_processing = (Resolved None, db_processing).
Proof.
  split; [reflexivity|]. split; [reflexivity|].
  apply (predict_without_model_is_null env_down db_processing "tf-001" tf1
           (ev "e2" "Processing" "2025-02-05T10:00:00Z")); try reflexivity.
  left. reflexivity.
Defined.

(** Every path of [predictRefundAvailability] resolves; a value or a new
    row is only produced past all four checks. *)
Lemma predict_outcome (env : Env) (db : Db) (taxFileId : string) :
  exists r db',
    predictRefundAvailability env taxFileId db = (Resolved r, db') /\
    (r <> None \/ TaxRefundPredictions db' <> TaxRefundPredictions db ->
     prediction_preconditions env db taxFileId).
Proof.
  destruct (lookup_tax_file db taxFileId) as [taxFile|] eqn:Hf.
  2:{ exists None, db. split.
      - unfold predictRefundAvailability, try_catch, bind, getTaxFileById, throw, ret.
        rewrite Hf. reflexivity.
      - intros [H|H]; congruence. }
  destruct (latest_event db taxFileId) as [latest|] eqn:Hl.
  2:{ exists None, db. split.
      - unfold predictRefundAvailability, try_catch, bind, getTaxFileById,
          getLatestTaxProcessingEvent, ret.
        rewrite Hf, Hl. reflexivity.
      - intros [H|H]; congruence. }
  destruct (String.eqb_spec (TaxProcessingEvent.NewStatus latest) "Processing") as [Hs|Hs].
  2:{ exists None, db. split.
      - unfold predictRefundAvailability, try_catch, bind, getTaxFileById,
          getLatestTaxProcessingEvent, ret.
        rewrite Hf, Hl. apply String.eqb_neq in Hs. rewrite Hs. reflexivity.
      - intros [H|H]; congruence. }
  rewrite (predict_processing_unfold env db taxFileId taxFile latest Hf Hl Hs).
  destruct (checkMLApiHealth env) eqn:Hh.
  2:{ exists None, db. split; [reflexivity|]. intros [H|H]; congruence. }
  destruct (ml_predict env (prediction_payload taxFile latest)) as [p|] eqn:Hp.
  2:{ exists None, db. split; [reflexivity|]. intros [H|H]; congruence. }
  unfold try_catch, bind, createTaxRefundPrediction, ret. cbn [negb].
  destruct (existsb _ _).
  - exists None, db. split; [reflexivity|].
    intros _. exists taxFile, latest, p. auto.
  - eexists _, _. split; [reflexivity|].
    intros _. exists taxFile, latest, p. auto.
Qed.

(** C8: [predictRefundAvailability] always resolves (the missing-file
    exception is caught), and it resolves to [null] without adding a
    [TaxRefundPredictions] row unless the file exists, its latest event is
    ['Processing'], the health check succeeds and the prediction call
    returns a response. *)
Theorem predict_total_and_guarded (env : Env) (db : Db) (taxFileId : string) :
  exists r db',
    predictRefundAvailability env taxFileId db = (Resolved r, db') /\
    (r <> None \/ TaxRefundPredictions db' <> TaxRefundPredictions db ->
     prediction_preconditions env db taxFileId).
Proof. apply predict_outcome. Qed.

(** What a successful [predictRefundAvailability] did: it went through
    every check, copied the ML response and inserted exactly one row. *)
Lemma predict_success_inv env db taxFileId r db' :
  predictRefundAvailability env taxFileId db = (Resolved (Some r), db') ->
  exists taxFile latest p,
    lookup_tax_file db taxFileId = Some taxFile /\
    latest_event db taxFileId = Some latest /\
    TaxProcessingEvent.NewStatus latest = "Processing" /\
    checkMLApiHealth env = true /\
    ml_predict env (prediction_payload taxFile latest) = Some p /\
    r = PredictionResult.mk (PredictionResponse.estimated_days p)
          (PredictionResponse.confidence_score p) (PredictionResponse.predicted_date p) /\
    db' = mkDb (TaxFiles db) (TaxProcessingEvents db)
            (TaxRefundPredictions db ++
             [TaxRefundPrediction.mk (next_uuid env) taxFileId
                (PredictionResponse.confidence_score p) "v1.0"
                (PredictionResponse.predicted_date p) (input_features_of taxFile) (now env)]).
Proof.
  intros Hrun.
  destruct (lookup_tax_file db taxFileId) as [taxFile|] eqn:Hf.
  2:{ unfold predictRefundAvailability, try_catch, bind, getTaxFileById, throw, ret in Hrun.
      rewrite Hf in Hrun. discriminate. }
  destruct (latest_event db taxFileId) as [latest|] eqn:Hl.
  2:{ unfold predictRefundAvailability, try_catch, bind, getTaxFileById,
        getLatestTaxProcessingEvent, ret in Hrun.
      rewrite Hf, Hl in Hrun. discriminate. }
  destruct (String.eqb_spec (TaxProcessingEvent.NewStatus latest) "Processing") as [Hs|Hs].
  2:{ unfold predictRefundAvailability, try_catch, bind, getTaxFileById,
        getLatestTaxProcessingEvent, ret in Hrun.
      rewrite Hf, Hl in Hrun. apply String.eqb_neq in Hs. rewrite Hs in Hrun.
      discriminate. }
  rewrite (predict_processing_unfold env db taxFileId taxFile latest Hf Hl Hs) in Hrun.
  destruct (checkMLApiHealth env) eqn:Hh; [|discriminate].
  destruct (ml_predict env (prediction_payload taxFile latest)) as [p|] eqn:Hp;
    [|discriminate].
  unfold try_catch, bind, createTaxRefundPrediction, ret in Hrun. cbn [negb] in Hrun.
  destruct (existsb _ _); [discriminate|].
  injection Hrun as <- <-.
  exists taxFile, latest, p. repeat split; auto.
Qed.

(** C2 (as the code does it): every successful prediction appends exactly
    one [TaxRefundPredictions] row, for the requested file, holding the
    input features (filing type, tax year, region, claimed amount), the
    confidence score and predicted availability date that were returned,
    and the creation time; the table has no predicted-days column. *)
Theorem prediction_record_contents (env : Env) (db db' : Db) (taxFileId : string)
    (r : PredictionResult.t) :
  predictRefundAvailability env taxFileId db = (Resolved (Some r), db') ->
  exists (taxFile : TaxFile.t) (row : TaxRefundPrediction.t),
    lookup_tax_file db taxFileId = Some taxFile /\
    TaxRefundPredictions db' = (TaxRefundPredictions db ++ [row])%list /\
    TaxRefundPrediction.TaxFileID row = taxFileId /\
    TaxRefundPrediction.InputFeatures row = input_features_of taxFile /\
    TaxRefundPrediction.ConfidenceScore row = PredictionResult.confidenceScore r /\
    TaxRefundPrediction.PredictedAvailabilityDate row = PredictionResult.predictedDate r /\
    TaxRefundPrediction.CreatedAt row = now env.
Proof.
  intros Hrun.
  destruct (predict_success_inv env db taxFileId r db' Hrun)
    as (taxFile & latest & p & Hf & _ & _ & _ & _ & -> & ->).
  eexists taxFile, _. repeat split; eauto.
Qed.

Lemma prediction_record_contents_witness :
  exists (taxFile : TaxFile.t) (row : TaxRefundPrediction.t),
    lookup_tax_file db_processing "tf-001" = Some taxFile /\
    TaxRefundPredictions (snd (predictRefundAvailability env_up "tf-001" db_processing))
      = (TaxRefundPredictions db_processing ++ [row])%list /\
    TaxRefundPrediction.TaxFileID row = "tf-001" /\
    TaxRefundPrediction.InputFeatures row = input_features_of taxFile /\
    TaxRefundPrediction.ConfidenceScore row = 85 # 100 /\
    TaxRefundPrediction.PredictedAvailabilityDate row = "2025-02-24" /\
    TaxRefundPrediction.CreatedAt row = now env_up.
Proof.
  apply (prediction_record_contents env_up db_processing
           (snd (predictRefundAvailability env_up "tf-001" db_processing)) "tf-001"
           (PredictionResult.mk 14 (85 # 100) "2025-02-24")).
  reflexivity.
Defined.

(** C2 as stated fails: the stored row does not carry the model version the
    ML API reports for the prediction (['v5'] here) but the constant
    ['v1.0']. *)
Lemma prediction_record_version_counterexample :
  fst (predictRefundAvailability env_up "tf-001" db_processing)
    = Resolved (Some (PredictionResult.mk 14 (85 # 100) "2025-02-24")) /\
  PredictionResponse.model_version response_v5 = "v5" /\
  ~ (forall row, In row (TaxRefundPredictions
                           (snd (predictRefundAvailability env_up "tf-001" db_processing))) ->
                 TaxRefundPrediction.ModelVersion row = PredictionResponse.model_version response_v5).
Proof.
  split; [reflexivity|]. split; [reflexivity|].
  intros H. specialize (H _ (or_introl eq_refl)). discriminate H.
Qed.

(** C3 (as the code does it): a successful prediction returns an object
    with exactly the three properties [estimatedDays], [confidenceScore]
    and [predictedDate], copied unchanged from the ML API's
    [estimated_days], [confidence_score] and [predicted_date], and no
    model-version property. Conversely, the service checks nothing about
    these values: whenever the file's latest event is ['Processing'], the
    health check passes, the ML API answers [p] and the row can be
    inserted, the result is [p]'s values, whatever they are (fractional
    days, a confidence outside 0..1). *)
Theorem prediction_result_fields (env : Env) (db : Db) (taxFileId : string) :
  (forall (db' : Db) (r : PredictionResult.t),
     predictRefundAvailability env taxFileId db = (Resolved (Some r), db') ->
     exists taxFile latest p,
       lookup_tax_file db taxFileId = Some taxFile /\
       latest_event db taxFileId = Some latest /\
       ml_predict env (prediction_payload taxFile latest) = Some p /\
       prop_get r "estimatedDays" = Some (JNum (PredictionResponse.estimated_days p)) /\
       prop_get r "confidenceScore" = Some (JNum (PredictionResponse.confidence_score p)) /\
       prop_get r "predictedDate" = Some (JStr (PredictionResponse.predicted_date p)) /\
       prop_get r "modelVersion" = None /\
       (forall name, prop_get r name <> None ->
          name = "estimatedDays" \/ name = "confidenceScore" \/ name = "predictedDate")) /\
  (forall (taxFile : TaxFile.t) (latest : TaxProcessingEvent.t) (p : PredictionResponse.t),
     lookup_tax_file db taxFileId = Some taxFile ->
     latest_event db taxFileId = Some latest ->
     TaxProcessingEvent.NewStatus latest = "Processing" ->
     checkMLApiHealth env = true ->
     ml_predict env (prediction_payload taxFile latest) = Some p ->
     existsb (fun q => String.eqb (TaxRefundPrediction.PredictionID q) (next_uuid env))
             (TaxRefundPredictions db) = false ->
     exists db',
       predictRefundAvailability env taxFileId db
       = (Resolved (Some (PredictionResult.mk (PredictionResponse.estimated_days p)
                            (PredictionResponse.confidence_score p)
                            (PredictionResponse.predicted_date p))), db')).
Proof.
  split.
  - intros db' r Hrun.
    destruct (predict_success_inv env db taxFileId r db' Hrun)
      as (taxFile & latest & p & Hf & Hl & _ & _ & Hp & -> & _).
    exists taxFile, latest, p. repeat split; auto.
    intros name Hname. unfold prop_get in Hname.
    destruct (String.eqb_spec name "estimatedDays"); [left; assumption|].
    destruct (String.eqb_spec name "confidenceScore"); [right; left; assumption|].
    destruct (String.eqb_spec name "predictedDate"); [right; right; assumption|].
    exfalso. apply Hname. reflexivity.
  - intros taxFile latest p Hf Hl Hs Hh Hp Hfresh.
    rewrite (predict_processing_unfold env db taxFileId taxFile latest Hf Hl Hs), Hh, Hp.
    unfold try_catch, bind, createTaxRefundPrediction, ret. cbn [negb].
    rewrite Hfresh. eexists. reflexivity.
Qed.

(** An ML answer of 12.5 days with confidence 1.5 is returned as it is. *)
Lemma prediction_result_fields_witness :
  exists db',
    predictRefundAvailability env_unchecked "tf-001" db_processing
    = (Resolved (Some (PredictionResult.mk (25 # 2) (3 # 2) "2025-02-24")), db').
Proof.
  apply (proj2 (prediction_result_fields env_unchecked db_processing "tf-001")
           tf1 (ev "e2" "Processing" "2025-02-05T10:00:00Z") response_unchecked);
    reflexivity.
Defined.

(** C3 as stated fails: the result of a successful prediction has no
    model-version property although the ML API answered with ['v5']; and
    when the ML API answers 12.5 days with confidence 1.5, the result's
    days are not an integer and its confidence is not in 0..1. *)
Lemma prediction_result_fields_counterexample :
  (exists r,
     fst (predictRefundAvailability env_up "tf-001" db_processing) = Resolved (Some r) /\
     PredictionResponse.model_version response_v5 = "v5" /\
     prop_get r "modelVersion" = None) /\
  (exists r,
     fst (predictRefundAvailability env_unchecked "tf-001" db_processing) = Resolved (Some r) /\
     ~ (exists n : Z, PredictionResult.estimatedDays r == inject_Z n) /\
     ~ (0 <= PredictionResult.confidenceScore r <= 1)%Q).
Proof.
  split.
  - eexists. split; [reflexivity|]. split; reflexivity.
  - eexists. split; [reflexivity|]. split.
    + intros [n Hn]. unfold Qeq in Hn. simpl in Hn. lia.
    + intros [_ H]. unfold Qle in H. simpl in H. lia.
Qed.

(* ------------------------------------------------------------------ *)
(** ** Proofs about RefundStatusService *)

(** C9: for a file whose latest event is ['Approved'], [getRefundStatus]
    returns a status whose [refundAmount] is the file's claimed amount and
    whose [depositDate] is the part of the event's [StatusUpdateDate]
    before ['T'], with no estimated-completion properties. *)
Theorem approved_status_fields (env : Env) (db : Db) (taxFileId : string)
    (taxFile : TaxFile.t) (latest : TaxProcessingEvent.t) :
  lookup_tax_file db taxFileId = Some taxFile ->
  latest_event db taxFileId = Some latest ->
  TaxProcessingEvent.NewStatus latest = "Approved" ->
  exists st,
    getRefundStatus env taxFileId db = (Resolved (Some st), db) /\
    RefundStatus.refundAmount st = Some (TaxFile.ClaimedRefundAmount taxFile) /\
    RefundStatus.depositDate st
      = Some (split_first "T" (TaxProcessingEvent.StatusUpdateDate latest)) /\
    RefundStatus.estimatedCompletionDays st = None /\
    RefundStatus.estimatedCompletionDate st = None.
Proof.
  intros Hf Hl Hs.
  unfold getRefundStatus, try_catch, bind, getTaxFileById, getLatestTaxProcessingEvent, ret.
  rewrite Hf, Hl. cbv zeta. rewrite Hs. cbn [String.eqb Ascii.eqb Bool.eqb andb].
  eexists. split; [reflexivity|]. repeat split.
Qed.

Lemma approved_status_fields_witness :
  exists st,
    getRefundStatus env_up "tf-001" db_approved = (Resolved (Some st), db_approved) /\
    RefundStatus.refundAmount st = Some (2500 # 1) /\
    RefundStatus.depositDate st = Some "2025-02-26" /\
    RefundStatus.estimatedCompletionDays st = None /\
    RefundStatus.estimatedCompletionDate st = None.
Proof.
  apply (approved_status_fields env_up db_approved "tf-001" tf1
           (ev "e3" "Approved" "2025-02-26T12:00:00Z")); reflexivity.
Defined.

(** *** SQL ordering: the insertion sort sorts and permutes *)

Lemma string_compare_not_gt_trans (a b c : string) :
  String.compare a b <> Gt -> String.compare b c <> Gt -> String.compare a c <> Gt.
Proof.
  revert b c. induction a as [|x a IH]; intros [|y b] [|z c]; simpl; try congruence.
  unfold Ascii.compare.
  destruct (N.compare_spec (N_of_ascii x) (N_of_ascii y));
  destruct (N.compare_spec (N_of_ascii y) (N_of_ascii z));
  destruct (N.compare_spec (N_of_ascii x) (N_of_ascii z));
  try lia; try congruence; eauto.
Qed.

Lemma date_le_trans a b c : date_le a b = true -> date_le b c = true -> date_le a c = true.
Proof.
  unfold date_le, String.leb.
  destruct (String.compare a b) eqn:E1; try discriminate;
  destruct (String.compare b c) eqn:E2; try discriminate;
  destruct (String.compare a c) eqn:E3; auto;
  exfalso; eapply string_compare_not_gt_trans with (a := a) (b := b) (c := c); congruence.
Qed.

Lemma date_le_refl a : date_le a a = true.
Proof. unfold date_le. destruct (String.leb_total a a); assumption. Qed.

Lemma date_le_total a b : date_le a b = false -> date_le b a = true.
Proof.
  unfold date_le. intros H. destruct (String.leb_total a b); congruence.
Qed.

Section InsertionSort.
Variable before : TaxProcessingEvent.t -> TaxProcessingEvent.t -> bool.
Hypothesis before_total : forall a b, before a b = false -> before b a = true.
Let R a b := before a b = true.

Lemma insert_by_perm e l : Permutation (insert_by before e l) (e :: l).
Proof.
  induction l as [|x l IH]; simpl; [auto|].
  destruct (before e x); [auto|].
  rewrite IH. apply perm_swap.
Qed.

Lemma sort_by_perm l : Permutation (sort_by before l) l.
Proof.
  induction l as [|x l IH]; simpl; [auto|].
  rewrite insert_by_perm. auto.
Qed.

Lemma insert_by_hdrel x e l :
  R x e -> HdRel R x l -> HdRel R x (insert_by before e l).
Proof.
  intros Hxe Hl. destruct l as [|y l]; simpl.
  - constructor. exact Hxe.
  - destruct (before e y); constructor; [exact Hxe|]. inversion Hl; assumption.
Qed.

Lemma insert_by_sorted e l : Sorted R l -> Sorted R (insert_by before e l).
Proof.
  induction l as [|x l IH]; intros Hs; simpl.
  - repeat constructor.
  - destruct (before e x) eqn:Hex.
    + constructor; [exact Hs|]. constructor. exact Hex.
    + inversion Hs; subst. constructor.
      * apply IH. assumption.
      * apply insert_by_hdrel; [apply before_total; exact Hex | assumption].
Qed.

Lemma sort_by_sorted l : Sorted R (sort_by before l).
Proof.
  induction l as [|x l IH]; simpl; [constructor|].
  apply insert_by_sorted. exact IH.
Qed.
End InsertionSort.

Lemma asc_total a b : asc a b = false -> asc b a = true.
Proof. unfold asc. apply date_le_total. Qed.

Lemma desc_total a b : desc a b = false -> desc b a = true.
Proof. unfold desc. apply date_le_total. Qed.

(** The row [LIMIT 1] picks after [ORDER BY StatusUpdateDate DESC] is an
    event of the file with the greatest [StatusUpdateDate]. *)
Lemma latest_event_is_max db taxFileId latest :
  latest_event db taxFileId = Some latest ->
  In latest (events_of db taxFileId) /\
  forall e, In e (events_of db taxFileId) ->
    date_le (TaxProcessingEvent.StatusUpdateDate e)
            (TaxProcessingEvent.StatusUpdateDate latest) = true.
Proof.
  unfold latest_event, sort_desc. intros H.
  pose proof (sort_by_perm desc (events_of db taxFileId)) as Hperm.
  pose proof (sort_by_sorted desc desc_total (events_of db taxFileId)) as Hsorted.
  destruct (sort_by desc (events_of db taxFileId)) as [|x rest] eqn:E; [discriminate|].
  simpl in H. injection H as ->.
  apply Sorted_StronglySorted in Hsorted.
  2:{ intros a b c Hab Hbc. unfold desc in *. eapply date_le_trans; eauto. }
  inversion Hsorted as [|? ? _ Hall]; subst.
  split.
  - apply (Permutation_in _ Hperm). left. reflexivity.
  - intros e He. apply (Permutation_in _ (Permutation_sym Hperm)) in He.
    destruct He as [<-|He].
    + apply date_le_refl.
    + rewrite Forall_forall in Hall. apply (Hall e He).
Qed.

(** C10: history is returned in ascending [StatusUpdateDate] order (a
    sorted permutation of the file's events, whatever their insertion
    order), and the status [getRefundStatus] reports is the [NewStatus] of
    an event of the file with the greatest [StatusUpdateDate]. *)
Theorem status_follows_update_time (env : Env) (db : Db) (taxFileId : string)
    (taxFile : TaxFile.t) :
  lookup_tax_file db taxFileId = Some taxFile ->
  (exists hist,
     getRefundStatusHistory taxFileId db = (Resolved hist, db) /\
     Permutation hist (events_of db taxFileId) /\
     Sorted (fun a b => asc a b = true) hist) /\
  (events_of db taxFileId <> [] ->
   exists latest st db',
     In latest (events_of db taxFileId) /\
     (forall e, In e (events_of db taxFileId) ->
        date_le (TaxProcessingEvent.StatusUpdateDate e)
                (TaxProcessingEvent.StatusUpdateDate latest) = true) /\
     getRefundStatus env taxFileId db = (Resolved (Some st), db') /\
     RefundStatus.status st = TaxProcessingEvent.NewStatus latest).
Proof.
  intros Hf. split.
  - exists (sort_asc (events_of db taxFileId)). split; [reflexivity|]. split.
    + apply sort_by_perm.
    + apply sort_by_sorted, asc_total.
  - intros Hne.
    destruct (latest_event db taxFileId) as [latest|] eqn:Hl.
    2:{ exfalso. apply Hne. unfold latest_event, sort_desc in Hl.
        pose proof (sort_by_perm desc (events_of db taxFileId)) as Hperm.
        destruct (sort_by desc (events_of db taxFileId)); [|discriminate].
        apply Permutation_nil. exact Hperm. }
    destruct (latest_event_is_max db taxFileId latest Hl) as [Hin Hmax].
    unfold getRefundStatus, try_catch, bind, getTaxFileById,
      getLatestTaxProcessingEvent, ret.
    rewrite Hf, Hl. cbv zeta.
    destruct (String.eqb (TaxProcessingEvent.NewStatus latest) "Processing").
    + destruct (predict_outcome env db taxFileId) as (r & db' & Hrun & _).
      rewrite Hrun. destruct r as [p|].
      * do 3 eexists. split; [exact Hin|]. split; [exact Hmax|].
        split; [reflexivity|]. reflexivity.
      * do 3 eexists. split; [exact Hin|]. split; [exact Hmax|].
        split; [reflexivity|]. reflexivity.
    + destruct (String.eqb (TaxProcessingEvent.NewStatus latest) "Approved");
        do 3 eexists; split; try exact Hin; split; try exact Hmax;
        split; reflexivity.
Qed.

Lemma status_follows_update_time_witness :
  (exists hist,
     getRefundStatusHistory "tf-001" db_approved = (Resolved hist, db_approved) /\
     Permutation hist (events_of db_approved "tf-001") /\
     Sorted (fun a b => asc a b = true) hist) /\
  (events_of db_approved "tf-001" <> [] ->
   exists latest st db',
     In latest (events_of db_approved "tf-001") /\
     (forall e, In e (events_of db_approved "tf-001") ->
        date_le (TaxProcessingEvent.StatusUpdateDate e)
                (TaxProcessingEvent.StatusUpdateDate latest) = true) /\
     getRefundStatus env_up "tf-001" db_approved = (Resolved (Some st), db') /\
     RefundStatus.status st = TaxProcessingEvent.NewStatus latest).
Proof.
  apply (status_follows_update_time env_up db_approved "tf-001" tf1). reflexivity.
Defined.

Example history_example :
  map TaxProcessingEvent.NewStatus (fst_resolved_default (getRefundStatusHistory "tf-001" db_approved))
  = ["Submitted"; "Processing"; "Approved"].
Proof. reflexivity. Qed.

(* ------------------------------------------------------------------ *)
(** ** Proofs about the trainer *)

Module TrainerFacts.
Import Trainer.

Lemma filter_active_deactivate s : filter active (map deactivate s) = [].
Proof. induction s as [|a s IH]; simpl; auto. Qed.

Lemma find_active_deactivate s a :
  find active (map deactivate s ++ [a])%list = if active a then Some a else None.
Proof. induction s as [|b s IH]; simpl; [destruct (active a)|]; auto. Qed.

Lemma train_shape rows err s s' :
  train rows err s = inr s' ->
  s' = (map deactivate s ++
        [mkArtifact (match active_version s with Some v => S v | None => 1%nat end)
                    true rows])%list.
Proof.
  unfold train. destruct (Nat.ltb rows MIN_TRAINING_ROWS); [discriminate|].
  destruct (Qle_bool err ERROR_CEILING); [|discriminate].
  intros H. injection H as <-. reflexivity.
Qed.

Lemma inv_train rows err s s' : inv s -> train rows err s = inr s' -> inv s'.
Proof.
  intros Hinv Ht. apply train_shape in Ht. subst s'. right.
  set (v := match active_version s with Some v => S v | None => 1%nat end).
  exists v. split.
  - unfold active_version. rewrite find_active_deactivate. reflexivity.
  - apply Forall_app. split.
    + apply Forall_map. destruct Hinv as [->|[w [Hw Hall]]]; [constructor|].
      unfold v. rewrite Hw. eapply Forall_impl; [|exact Hall]. simpl. intros b Hb. lia.
    + constructor; [simpl; lia | constructor].
Qed.

Lemma reachable_inv s : reachable s -> inv s.
Proof.
  induction 1.
  - left. reflexivity.
  - eapply inv_train; eauto.
  - left. reflexivity.
Qed.

Lemma count_active_train rows err s s' :
  train rows err s = inr s' -> count_active s' = 1%nat.
Proof.
  intros Ht. apply train_shape in Ht. subst s'. unfold count_active.
  rewrite filter_app, filter_active_deactivate. reflexivity.
Qed.

Lemma count_active_reachable s : reachable s -> (count_active s <= 1)%nat.
Proof.
  induction 1 as [|s0 rows err s1 Hr IH Ht|s0 Hr IH].
  - unfold count_active. simpl. lia.
  - rewrite (count_active_train rows err s0 s1 Ht). lia.
  - unfold count_active, wipe. simpl. lia.
Qed.
End TrainerFacts.

(** C4: in every store the trainer and the clean-up script can produce at
    most one artifact is active; after a successful [train] exactly one is,
    namely the new artifact, whose version is the previous active version
    plus one (1 if there was none), which is strictly higher than every
    other version, and every earlier artifact is kept, inactive, in the same
    write. *)
Theorem train_active_model_invariant (s : Trainer.Store) :
  Trainer.reachable s ->
  (Trainer.count_active s <= 1)%nat /\
  forall rows err s',
    Trainer.train rows err s = inr s' ->
    Trainer.count_active s' = 1%nat /\
    exists a,
      In a s' /\ Trainer.active a = true /\
      Trainer.version a = match Trainer.active_version s with
                          | Some v => S v | None => 1%nat end /\
      (forall b, In b s' -> b <> a -> Trainer.active b = false /\
                 (Trainer.version b < Trainer.version a)%nat) /\
      (forall b, In b s -> In (Trainer.deactivate b) s').
Proof.
  intros Hr. split; [apply TrainerFacts.count_active_reachable; exact Hr|].
  intros rows err s' Ht. split; [eapply TrainerFacts.count_active_train; eauto|].
  pose proof (TrainerFacts.reachable_inv s Hr) as Hinv.
  apply TrainerFacts.train_shape in Ht. subst s'.
  eexists. split; [apply in_or_app; right; left; reflexivity|].
  split; [reflexivity|]. split; [reflexivity|]. split.
  - intros b Hb Hne. apply in_app_or in Hb. destruct Hb as [Hb|[Hb|[]]].
    2:{ exfalso. apply Hne. symmetry. exact Hb. }
    apply in_map_iff in Hb. destruct Hb as [c [<- Hc]]. split; [reflexivity|].
    destruct Hinv as [->|[w [Hw Hall]]]; [destruct Hc|].
    rewrite Forall_forall in Hall. specialize (Hall c Hc). simpl. rewrite Hw. lia.
  - intros b Hb. apply in_or_app. left. apply in_map. exact Hb.
Qed.

(** The store after a first training run holds the active version 1; a
    second run deactivates it and writes version 2. *)
Lemma train_active_model_invariant_witness :
  Trainer.reachable [Trainer.mkArtifact 1 true 25] /\
  Trainer.train 30 10 [Trainer.mkArtifact 1 true 25]
    = inr [Trainer.mkArtifact 1 false 25; Trainer.mkArtifact 2 true 30] /\
  (Trainer.count_active [Trainer.mkArtifact 1 true 25] <= 1)%nat /\
  Trainer.count_active [Trainer.mkArtifact 1 false 25; Trainer.mkArtifact 2 true 30] = 1%nat /\
  exists a,
    In a [Trainer.mkArtifact 1 false 25; Trainer.mkArtifact 2 true 30] /\
    Trainer.active a = true /\
    Trainer.version a = match Trainer.active_version [Trainer.mkArtifact 1 true 25] with
                        | Some v => S v | None => 1%nat end /\
    (forall b, In b [Trainer.mkArtifact 1 false 25; Trainer.mkArtifact 2 true 30] -> b <> a ->
               Trainer.active b = false /\ (Trainer.version b < Trainer.version a)%nat) /\
    (forall b, In b [Trainer.mkArtifact 1 true 25] ->
               In (Trainer.deactivate b) [Trainer.mkArtifact 1 false 25; Trainer.mkArtifact 2 true 30]).
Proof.
  assert (Hr : Trainer.reachable [Trainer.mkArtifact 1 true 25]).
  { apply (Trainer.reach_train [] 25 10); [constructor | reflexivity]. }
  assert (Ht : Trainer.train 30 10 [Trainer.mkArtifact 1 true 25]
               = inr [Trainer.mkArtifact 1 false 25; Trainer.mkArtifact 2 true 30]).
  { reflexivity. }
  destruct (train_active_model_invariant [Trainer.mkArtifact 1 true 25] Hr) as [Hle Hstep].
  destruct (Hstep 30%nat 10 _ Ht) as [Hone Ha].
  split; [exact Hr|]. split; [exact Ht|]. split; [exact Hle|]. split; [exact Hone|].
  exact Ha.
Defined.

Example train_example :
  match Trainer.train 25 10 [Trainer.mkArtifact 1 false 30; Trainer.mkArtifact 2 true 40] with
  | inr s' => map (fun a => (Trainer.version a, Trainer.active a)) s'
  | inl _ => []
  end = [(1%nat, false); (2%nat, false); (3%nat, true)].
Proof. reflexivity. Qed.

(* ------------------------------------------------------------------ *)
(** ** Proofs about ETL *)

Module EtlFacts.
Import Etl.
Local Open Scope Z_scope.

Lemma filter_none {A} (p : A -> bool) l :
  (forall x, In x l -> p x = false) -> filter p l = [].
Proof.
  induction l as [|x l IH]; intros H; simpl; [reflexivity|].
  rewrite (H x (or_introl eq_refl)). apply IH. intros y Hy. apply H. right. exact Hy.
Qed.

Lemma filter_every {A} (p : A -> bool) l :
  (forall x, In x l -> p x = true) -> filter p l = l.
Proof.
  induction l as [|x l IH]; intros H; simpl; [reflexivity|].
  rewrite (H x (or_introl eq_refl)). f_equal. apply IH. intros y Hy. apply H. right. exact Hy.
Qed.

Lemma insert_day_perm e l : Permutation (insert_day e l) (e :: l).
Proof.
  induction l as [|x l IH]; simpl; [auto|].
  destruct (ev_day e <=? ev_day x); [auto|].
  rewrite IH. apply perm_swap.
Qed.

Lemma sort_day_perm l : Permutation (sort_day l) l.
Proof.
  induction l as [|x l IH]; simpl; [auto|].
  rewrite insert_day_perm. auto.
Qed.

Lemma dedup_from_in cur rest e : In e (dedup_from cur rest) -> In e (cur :: rest).
Proof.
  revert cur. induction rest as [|y r IH]; intros cur; simpl; [tauto|].
  destruct (ev_day cur =? ev_day y).
  - intros He. apply IH in He. unfold later_created in He.
    destruct (ev_created cur <? ev_created y); simpl in He; tauto.
  - intros [He|He]; [tauto|]. apply IH in He. simpl in He. tauto.
Qed.

Lemma dedup_from_nodup cur rest :
  NoDup (map ev_day (cur :: rest)) -> dedup_from cur rest = cur :: rest.
Proof.
  revert cur. induction rest as [|y r IH]; intros cur Hnd; simpl; [reflexivity|].
  inversion Hnd as [|? ? Hnin Hnd']; subst.
  destruct (Z.eqb_spec (ev_day cur) (ev_day y)) as [Heq|Hne].
  - exfalso. apply Hnin. rewrite Heq. left. reflexivity.
  - rewrite IH by exact Hnd'. reflexivity.
Qed.

Lemma filing_events_filing ws we events f e :
  In e (filing_events ws we events f) -> ev_filing e = f.
Proof.
  unfold filing_events, dedup_day.
  destruct (sort_day (window_events ws we events f)) as [|x r] eqn:E; [intros []|].
  intros He. apply dedup_from_in in He. rewrite <- E in He.
  apply (Permutation_in _ (sort_day_perm _)) in He.
  unfold window_events in He. apply filter_In in He. destruct He as [_ Hb].
  apply andb_true_iff in Hb. destruct Hb as [Hb _]. apply String.eqb_eq. exact Hb.
Qed.

Lemma pairs_length l : length (pairs l) = (length l - 1)%nat.
Proof.
  induction l as [|x [|y r] IH]; simpl; auto.
  simpl in IH. rewrite IH. lia.
Qed.

Lemma pairs_filing l r :
  In r (pairs l) -> exists x, In x l /\ TaxFileID r = ev_filing x.
Proof.
  induction l as [|x [|y t] IH]; simpl; try tauto.
  intros [<-|Hr].
  - exists x. simpl. auto.
  - destruct (IH Hr) as [z [Hz Hf]]. exists z. simpl in Hz |- *. tauto.
Qed.

Lemma filing_records ws we events f r :
  In r (pairs (filing_events ws we events f)) -> TaxFileID r = f.
Proof.
  intros Hr. destruct (pairs_filing _ _ Hr) as [x [Hx ->]].
  eapply filing_events_filing. exact Hx.
Qed.

Lemma extract_other ws we events f filings :
  ~ In f filings ->
  filter (fun r => String.eqb (TaxFileID r) f) (extract ws we filings events) = [].
Proof.
  induction filings as [|g gs IH]; intros Hnin; simpl; [reflexivity|].
  unfold extract in IH |- *. simpl. rewrite filter_app, IH by (intro; apply Hnin; right; assumption).
  rewrite app_nil_r. apply filter_none. intros r Hr.
  rewrite (filing_records _ _ _ _ _ Hr). apply String.eqb_neq.
  intros ->. apply Hnin. left. reflexivity.
Qed.

Lemma extract_filing ws we events f filings :
  NoDup filings -> In f filings ->
  filter (fun r => String.eqb (TaxFileID r) f) (extract ws we filings events)
  = pairs (filing_events ws we events f).
Proof.
  induction filings as [|g gs IH]; intros Hnd Hin; [destruct Hin|].
  inversion Hnd as [|? ? Hg Hgs]; subst.
  unfold extract in IH |- *. simpl. rewrite filter_app.
  destruct Hin as [->|Hin].
  - pose proof (extract_other ws we events f gs Hg) as Hother.
    unfold extract in Hother. rewrite Hother, app_nil_r.
    apply filter_every. intros r Hr. apply String.eqb_eq.
    exact (filing_records _ _ _ _ _ Hr).
  - rewrite IH by assumption.
    replace (filter _ (pairs (filing_events ws we events g))) with (@nil RawTransitionRecord).
    + reflexivity.
    + symmetry. apply filter_none. intros r Hr.
      rewrite (filing_records _ _ _ _ _ Hr). apply String.eqb_neq.
      intros ->. contradiction.
Qed.

Lemma filing_events_distinct ws we events f :
  NoDup (map ev_day (window_events ws we events f)) ->
  filing_events ws we events f = sort_day (window_events ws we events f).
Proof.
  intros Hnd. unfold filing_events, dedup_day.
  pose proof (sort_day_perm (window_events ws we events f)) as Hp.
  destruct (sort_day (window_events ws we events f)) as [|x r] eqn:E; [reflexivity|].
  apply dedup_from_nodup.
  eapply Permutation_NoDup; [|exact Hnd].
  apply Permutation_map. symmetry. exact Hp.
Qed.
End EtlFacts.

(** C5: for every filing of an [extract] run, the transition records of that
    filing number one less than its status events in the window (the
    distinct-time events after same-day de-duplication; when no two entries
    share a day, simply its events in the window); on the spec's scenario
    (Submitted, Processing 5 days later, Approved 21 days after that) the
    run yields exactly two training examples, labelled 5 and 21. *)
Theorem etl_transition_count :
  (forall ws we filings events f,
     NoDup filings -> In f filings ->
     length (filter (fun r => String.eqb (Etl.TaxFileID r) f)
                    (Etl.extract ws we filings events))
     = (length (Etl.filing_events ws we events f) - 1)%nat) /\
  (forall ws we filings events f,
     NoDup filings -> In f filings ->
     NoDup (map Etl.ev_day (Etl.window_events ws we events f)) ->
     length (filter (fun r => String.eqb (Etl.TaxFileID r) f)
                    (Etl.extract ws we filings events))
     = (length (Etl.window_events ws we events f) - 1)%nat) /\
  map Etl.ex_label (Etl.transform "etl-job-1" (Etl.extract 0 100 ["f1"] Etl.scenario_events))
  = [5%Z; 21%Z].
Proof.
  split; [|split].
  - intros ws we filings events f Hnd Hin.
    rewrite EtlFacts.extract_filing by assumption. apply EtlFacts.pairs_length.
  - intros ws we filings events f Hnd Hin Hdays.
    rewrite EtlFacts.extract_filing by assumption. rewrite EtlFacts.pairs_length.
    rewrite EtlFacts.filing_events_distinct by exact Hdays.
    rewrite (Permutation_length (EtlFacts.sort_day_perm _)). reflexivity.
  - reflexivity.
Qed.

(** C6: a record's partition depends only on the job id and the record:
    transforming any reordering of the same records with the same job id
    assigns every record the same partition. *)
Theorem etl_partition_deterministic (etlJobId : string)
    (records records' : list Etl.RawTransitionRecord) :
  Permutation records records' ->
  (forall r p, In (r, p) (Etl.assignments etlJobId records) <->
               In (r, p) (Etl.assignments etlJobId records')) /\
  (forall r p, In (r, p) (Etl.assignments etlJobId records) ->
               p = Etl.partition_of etlJobId r).
Proof.
  intros Hperm.
  assert (Hmap : Permutation (Etl.assignments etlJobId records)
                             (Etl.assignments etlJobId records')).
  { unfold Etl.assignments, Etl.transform. rewrite !map_map.
    apply Permutation_map. exact Hperm. }
  split.
  - intros r p. split; intros Hin.
    + exact (Permutation_in _ Hmap Hin).
    + exact (Permutation_in _ (Permutation_sym Hmap) Hin).
  - intros r p Hin. unfold Etl.assignments, Etl.transform in Hin.
    rewrite map_map in Hin. apply in_map_iff in Hin.
    destruct Hin as [x [Hx _]]. simpl in Hx. injection Hx as <- <-. reflexivity.
Qed.

Lemma etl_partition_deterministic_witness :
  (forall r p, In (r, p) (Etl.assignments "etl-job-1" scenario_records) <->
               In (r, p) (Etl.assignments "etl-job-1" (rev scenario_records))) /\
  (forall r p, In (r, p) (Etl.assignments "etl-job-1" scenario_records) ->
               p = Etl.partition_of "etl-job-1" r).
Proof.
  apply etl_partition_deterministic. vm_compute. apply perm_swap.
Defined.

Example partition_example :
  map snd (Etl.assignments "etl-job-1" scenario_records) = [Etl.test; Etl.training].
Proof. reflexivity. Qed.

(* ------------------------------------------------------------------ *)
(** ** Proofs about the retraining decision *)

Lemma string_append_assoc (a b c : string) : ((a ++ b) ++ c = a ++ b ++ c)%string.
Proof. induction a as [|x a IH]; simpl; [reflexivity|]. rewrite IH. reflexivity. Qed.

Lemma string_append_empty (a : string) : (a ++ "")%string = a.
Proof. induction a as [|x a IH]; simpl; [reflexivity|]. rewrite IH. reflexivity. Qed.

Lemma concat_contains (sep x : string) (l : list string) :
  In x l -> contains x (String.concat sep l).
Proof.
  induction l as [|a l IH]; intros Hin; [destruct Hin|].
  destruct Hin as [<-|Hin].
  - destruct l as [|b l].
    + exists "", "". simpl. symmetry. apply string_append_empty.
    + exists "". eexists. reflexivity.
  - destruct (IH Hin) as (pre & post & Hc).
    destruct l as [|b l]; [destruct Hin|].
    exists (a ++ sep ++ pre)%string, post.
    change (String.concat sep (a :: b :: l)) with (a ++ sep ++ String.concat sep (b :: l))%string.
    rewrite Hc, !string_append_assoc. reflexivity.
Qed.

(** C7: the recommendation is the disjunction of the three triggers, and
    the recorded reason text contains the reason of every trigger that is
    true, all of them together when several are. *)
Theorem decide_or_with_all_reasons (schedule performance drift : bool) :
  let d := Retraining.decide schedule performance drift in
  Retraining.RetrainingRecommended d = schedule || performance || drift /\
  (schedule = true -> contains Retraining.SCHEDULE_REASON (Retraining.RecommendationReason d)) /\
  (performance = true ->
     contains Retraining.PERFORMANCE_REASON (Retraining.RecommendationReason d)) /\
  (drift = true -> contains Retraining.DRIFT_REASON (Retraining.RecommendationReason d)).
Proof.
  simpl. split; [reflexivity|].
  split; [|split]; intros H; apply concat_contains; unfold Retraining.reasons;
    destruct schedule, performance, drift; try discriminate H; simpl; tauto.
Qed.

Example decide_example :
  Retraining.decide_from 45 (60 # 100) false true
  = Retraining.mkDecision true true true true
      "Scheduled retraining interval exceeded; Model performance below threshold; Feature drift detected".
Proof. reflexivity. Qed.

(* ------------------------------------------------------------------ *)
(** ** Further proofs: queries, services and controller *)

(** *** [ORDER BY] on any table *)

Section RowSort.
Context {A : Type}.
Variable before : A -> A -> bool.
Hypothesis before_total : forall a b, before a b = false -> before b a = true.
Hypothesis before_trans :
  forall a b c, before a b = true -> before b c = true -> before a c = true.
Let R a b := before a b = true.

Lemma insert_row_perm x l : Permutation (insert_row before x l) (x :: l).
Proof.
  induction l as [|y l IH]; simpl; [auto|].
  destruct (before x y); [auto|].
  rewrite IH. apply perm_swap.
Qed.

Lemma sort_rows_perm l : Permutation (sort_rows before l) l.
Proof.
  induction l as [|x l IH]; simpl; [auto|].
  rewrite insert_row_perm. auto.
Qed.

Lemma insert_row_hdrel x e l :
  R x e -> HdRel R x l -> HdRel R x (insert_row before e l).
Proof.
  intros Hxe Hl. destruct l as [|y l]; simpl.
  - constructor. exact Hxe.
  - destruct (before e y); constructor; [exact Hxe|]. inversion Hl; assumption.
Qed.

Lemma insert_row_sorted e l : Sorted R l -> Sorted R (insert_row before e l).
Proof.
  induction l as [|x l IH]; intros Hs; simpl.
  - repeat constructor.
  - destruct (before e x) eqn:Hex.
    + constructor; [exact Hs|]. constructor. exact Hex.
    + inversion Hs; subst. constructor.
      * apply IH. assumption.
      * apply insert_row_hdrel; [apply before_total; exact Hex | assumption].
Qed.

Lemma sort_rows_strongly_sorted l : StronglySorted R (sort_rows before l).
Proof.
  apply Sorted_StronglySorted.
  - intros a b c. apply before_trans.
  - induction l as [|x l IH]; simpl; [constructor|].
    apply insert_row_sorted. exact IH.
Qed.

(** [LIMIT 1] after the sort: a row of the input placed before all of it. *)
Lemma sort_rows_head l x :
  hd_error (sort_rows before l) = Some x ->
  In x l /\ forall y, In y l -> before x y = true.
Proof.
  intros H.
  pose proof (sort_rows_perm l) as Hperm.
  pose proof (sort_rows_strongly_sorted l) as Hs.
  destruct (sort_rows before l) as [|z rest]; [discriminate|].
  simpl in H. injection H as ->.
  inversion Hs as [|? ? _ Hall]; subst.
  split.
  - apply (Permutation_in _ Hperm). left. reflexivity.
  - intros y Hy. apply (Permutation_in _ (Permutation_sym Hperm)) in Hy.
    destruct Hy as [<-|Hy].
    + destruct (before x x) eqn:E; [reflexivity|]. pose proof (before_total x x E). congruence.
    + rewrite Forall_forall in Hall. apply (Hall y Hy).
Qed.

Lemma sort_rows_head_none l : hd_error (sort_rows before l) = None -> l = [].
Proof.
  intros H. pose proof (sort_rows_perm l) as Hperm.
  destruct (sort_rows before l); [|discriminate].
  apply Permutation_nil. exact Hperm.
Qed.
End RowSort.

Lemma year_date_desc_total a b :
  year_date_desc a b = false -> year_date_desc b a = true.
Proof.
  unfold year_date_desc. intros H.
  apply orb_false_iff in H as [H1 H2].
  apply Z.ltb_ge in H1.
  destruct (Z.eq_dec (TaxFile.TaxYear a) (TaxFile.TaxYear b)) as [Heq|Hne].
  - rewrite Heq, Z.eqb_refl in H2. simpl in H2.
    rewrite Heq, Z.eqb_refl. apply orb_true_iff. right. simpl.
    apply date_le_total. exact H2.
  - apply orb_true_iff. left. apply Z.ltb_lt. lia.
Qed.

Lemma year_date_desc_trans a b c :
  year_date_desc a b = true -> year_date_desc b c = true -> year_date_desc a c = true.
Proof.
  unfold year_date_desc. rewrite !orb_true_iff, !andb_true_iff, !Z.ltb_lt, !Z.eqb_eq.
  intros [H1|[H1 H1']] [H2|[H2 H2']].
  - left. lia.
  - left. lia.
  - left. lia.
  - right. split; [lia|]. eapply date_le_trans; eauto.
Qed.

Lemma created_desc_total a b : created_desc a b = false -> created_desc b a = true.
Proof. unfold created_desc. apply date_le_total. Qed.

Lemma created_desc_trans a b c :
  created_desc a b = true -> created_desc b c = true -> created_desc a c = true.
Proof. unfold created_desc. intros H1 H2. eapply date_le_trans; eauto. Qed.

Lemma string_ltb_not_leb a b : String.ltb a b = true -> date_le b a = false.
Proof.
  unfold String.ltb, date_le, String.leb. rewrite (String.compare_antisym b a).
  destruct (String.compare a b); simpl; congruence.
Qed.

(** *** The service's [getRefundStatus], case by case *)

Lemma getRefundStatus_spec env db taxFileId :
  match lookup_tax_file db taxFileId with
  | None => getRefundStatus env taxFileId db = (Resolved None, db)
  | Some taxFile =>
    match latest_event db taxFileId with
    | None =>
      getRefundStatus env taxFileId db
      = (Resolved (Some (RefundStatus.mk "Not Found"
                           (Some "No processing events found for this tax filing.")
                           (now env) None None None None None)), db)
    | Some latest =>
      if String.eqb (TaxProcessingEvent.NewStatus latest) "Processing" then
        match predictRefundAvailability env taxFileId db with
        | (Resolved (Some p), db') =>
          getRefundStatus env taxFileId db = (Resolved (Some (with_estimate (base_status latest) p)), db')
        | (Resolved None, db') =>
          getRefundStatus env taxFileId db = (Resolved (Some (base_status latest)), db')
        | (Rejected _, db') => getRefundStatus env taxFileId db = (Resolved None, db')
        end
      else if String.eqb (TaxProcessingEvent.NewStatus latest) "Approved" then
        getRefundStatus env taxFileId db
        = (Resolved (Some (with_deposit (base_status latest) (TaxFile.ClaimedRefundAmount taxFile)
                             (split_first "T" (TaxProcessingEvent.StatusUpdateDate latest)))), db)
      else getRefundStatus env taxFileId db = (Resolved (Some (base_status latest)), db)
    end
  end.
Proof.
  unfold getRefundStatus, try_catch, bind, getTaxFileById, getLatestTaxProcessingEvent, ret.
  destruct (lookup_tax_file db taxFileId) as [taxFile|]; [|reflexivity].
  destruct (latest_event db taxFileId) as [latest|]; [|reflexivity].
  cbv zeta.
  destruct (String.eqb (TaxProcessingEvent.NewStatus latest) "Processing").
  - destruct (predictRefundAvailability env taxFileId db) as [[[p|]|e] db']; reflexivity.
  - destruct (String.eqb (TaxProcessingEvent.NewStatus latest) "Approved"); reflexivity.
Qed.

(** [predictRefundAvailability] either leaves the database as it is and
    resolves to [null], or succeeds. *)
Lemma predict_cases env db taxFileId :
  predictRefundAvailability env taxFileId db = (Resolved None, db) \/
  exists r db', predictRefundAvailability env taxFileId db = (Resolved (Some r), db').
Proof.
  destruct (lookup_tax_file db taxFileId) as [taxFile|] eqn:Hf.
  2:{ left. unfold predictRefundAvailability, try_catch, bind, getTaxFileById, throw, ret.
      rewrite Hf. reflexivity. }
  destruct (latest_event db taxFileId) as [latest|] eqn:Hl.
  2:{ left. unfold predictRefundAvailability, try_catch, bind, getTaxFileById,
        getLatestTaxProcessingEvent, ret.
      rewrite Hf, Hl. reflexivity. }
  destruct (String.eqb_spec (TaxProcessingEvent.NewStatus latest) "Processing") as [Hs|Hs].
  2:{ left. unfold predictRefundAvailability, try_catch, bind, getTaxFileById,
        getLatestTaxProcessingEvent, ret.
      rewrite Hf, Hl. apply String.eqb_neq in Hs. rewrite Hs. reflexivity. }
  rewrite (predict_processing_unfold env db taxFileId taxFile latest Hf Hl Hs).
  destruct (checkMLApiHealth env); [|left; reflexivity].
  destruct (ml_predict env (prediction_payload taxFile latest)); [|left; reflexivity].
  unfold try_catch, bind, createTaxRefundPrediction, ret.
  destruct (existsb _ _); [left; reflexivity|right; eexists _, _; reflexivity].
Qed.

(** *** RefundStatusController *)

(** GET [/refund-status/:taxFileId] answers 400 for an empty id, 404
    exactly when no [TaxFiles] row has the id (leaving the database as it
    is), and otherwise 200 with the status the service computed; it never
    answers 500. *)
Theorem controller_status_codes (env : Env) (db : Db) (taxFileId : string) :
  exists resp db',
    RefundStatusController.getRefundStatus env taxFileId db = (Resolved resp, db') /\
    (falsy taxFileId = true ->
     resp = mkResponse 400 (ErrorBody "Tax file ID is required") /\ db' = db) /\
    (falsy taxFileId = false -> lookup_tax_file db taxFileId = None ->
     resp = mkResponse 404 (ErrorBody "Tax filing not found") /\ db' = db) /\
    (falsy taxFileId = false -> lookup_tax_file db taxFileId <> None ->
     exists st, getRefundStatus env taxFileId db = (Resolved (Some st), db') /\
                resp = mkResponse 200 (StatusBody st)).
Proof.
  unfold RefundStatusController.getRefundStatus, try_catch, bind, respond, ret.
  destruct (falsy taxFileId) eqn:Hid.
  { eexists _, _. split; [reflexivity|].
    split; [intros _; split; reflexivity|]. split; intros; discriminate. }
  pose proof (getRefundStatus_spec env db taxFileId) as Hspec.
  destruct (lookup_tax_file db taxFileId) as [taxFile|] eqn:Hf.
  2:{ rewrite Hspec. eexists _, _. split; [reflexivity|].
      split; [discriminate|]. split; [intros _ _; split; reflexivity|].
      intros _ H; congruence. }
  assert (exists st db', getRefundStatus env taxFileId db = (Resolved (Some st), db'))
    as (st & db' & Hst).
  { destruct (latest_event db taxFileId) as [latest|]; [|eauto].
    destruct (String.eqb (TaxProcessingEvent.NewStatus latest) "Processing").
    - destruct (predict_cases env db taxFileId) as [Hp|(r & db'' & Hp)];
        rewrite Hp in Hspec; eauto.
    - destruct (String.eqb (TaxProcessingEvent.NewStatus latest) "Approved"); eauto. }
  rewrite Hst. eexists _, _. split; [reflexivity|].
  split; [discriminate|]. split; [intros _ H; discriminate|].
  intros _ _. exists st. split; reflexivity.
Qed.

(** GET [/refund-status/:taxFileId/history] answers 200 for every
    non-empty id, with the file's events in ascending update order and the
    database unchanged; an id without events, such as an unknown one, gets
    200 with an empty list rather than 404. *)
Theorem controller_history_ok (db : Db) (taxFileId : string) :
  falsy taxFileId = false ->
  exists hist,
    RefundStatusController.getRefundStatusHistory taxFileId db
      = (Resolved (mkResponse 200 (HistoryBody hist)), db) /\
    Permutation hist (events_of db taxFileId) /\
    Sorted (fun a b => asc a b = true) hist /\
    (events_of db taxFileId = [] -> hist = []).
Proof.
  intros Hid.
  unfold RefundStatusController.getRefundStatusHistory, getRefundStatusHistory,
    getTaxProcessingEvents, try_catch, bind, respond, ret.
  rewrite Hid.
  exists (sort_asc (events_of db taxFileId)). split; [reflexivity|].
  split; [apply sort_by_perm|]. split; [apply sort_by_sorted, asc_total|].
  intros He. apply Permutation_nil. rewrite <- He. symmetry. apply sort_by_perm.
Qed.

Lemma controller_history_ok_witness :
  falsy "tf-999" = false /\
  exists hist,
    RefundStatusController.getRefundStatusHistory "tf-999" db_approved
      = (Resolved (mkResponse 200 (HistoryBody hist)), db_approved) /\
    Permutation hist (events_of db_approved "tf-999") /\
    Sorted (fun a b => asc a b = true) hist /\
    (events_of db_approved "tf-999" = [] -> hist = []).
Proof.
  split; [reflexivity|]. apply (controller_history_ok db_approved "tf-999"). reflexivity.
Defined.

Lemma strongly_sorted_impl {A} (R1 R2 : A -> A -> Prop) l :
  (forall a b, R1 a b -> R2 a b) -> StronglySorted R1 l -> StronglySorted R2 l.
Proof.
  intros Himp. induction 1 as [|x l Hs IH Hall]; constructor; [exact IH|].
  eapply Forall_impl; [|exact Hall]. intros a. apply Himp.
Qed.

(** [RefundStatusService.getTaxFilings] always resolves, without touching
    the database, to the user's tax files (all of them, each once) ordered
    by tax year, newest first, and within one year by filing date, latest
    first. *)
Theorem getTaxFilings_ordered (db : Db) (userId : string) :
  exists filings,
    getTaxFilings userId db = (Resolved filings, db) /\
    Permutation filings (filter (fun f => String.eqb (TaxFile.UserID f) userId) (TaxFiles db)) /\
    StronglySorted (fun a b =>
      (TaxFile.TaxYear b < TaxFile.TaxYear a)%Z \/
      (TaxFile.TaxYear a = TaxFile.TaxYear b /\
       date_le (TaxFile.DateOfFiling b) (TaxFile.DateOfFiling a) = true)) filings.
Proof.
  exists (sort_rows year_date_desc (files_of_user db userId)).
  split; [reflexivity|]. split; [apply sort_rows_perm|].
  eapply strongly_sorted_impl.
  2:{ apply sort_rows_strongly_sorted; [apply year_date_desc_total | apply year_date_desc_trans]. }
  intros a b. unfold year_date_desc.
  rewrite orb_true_iff, andb_true_iff, Z.ltb_lt, Z.eqb_eq. auto.
Qed.

(** GET [/users/:userId/tax-filings] answers 400 for an empty id; 500
    with ['Internal server error'] when the [Users] query fails (for
    instance, no such table); 404 when no [Users] row has the id, whatever
    [TaxFiles] holds for it; otherwise 200 with [getTaxFilings]' list. The
    database is never changed. *)
Theorem controller_tax_filings_codes (usersTable : result (list User.t)) (db : Db)
    (userId : string) :
  exists resp,
    RefundStatusController.getTaxFilings usersTable userId db = (Resolved resp, db) /\
    (falsy userId = true -> resp = mkResponse 400 (ErrorBody "User ID is required")) /\
    (falsy userId = false -> forall err, usersTable = Rejected err ->
     resp = mkResponse 500 (ErrorBody "Internal server error")) /\
    (falsy userId = false -> forall rows, usersTable = Resolved rows ->
     lookup_user rows userId = None ->
     resp = mkResponse 404 (ErrorBody "User not found")) /\
    (falsy userId = false -> forall rows, usersTable = Resolved rows ->
     lookup_user rows userId <> None ->
     exists filings, getTaxFilings userId db = (Resolved filings, db) /\
                     resp = mkResponse 200 (FilingsBody filings)).
Proof.
  unfold RefundStatusController.getTaxFilings, getUserById, try_catch, bind, respond, ret,
    internal_error.
  destruct (falsy userId).
  { eexists. split; [reflexivity|]. split; [reflexivity|]. split; [|split]; intros; discriminate. }
  destruct usersTable as [rows|err].
  2:{ eexists. split; [reflexivity|]. split; [discriminate|].
      split; [intros _ e _; reflexivity|]. split; intros _ r Hr; discriminate Hr. }
  destruct (lookup_user rows userId) as [u|] eqn:Hu.
  - eexists. split; [reflexivity|]. split; [discriminate|]. split; [intros _ e He; discriminate He|].
    split; [intros _ r Hr; injection Hr as <-; congruence|].
    intros _ r Hr _. eexists. split; reflexivity.
  - eexists. split; [reflexivity|]. split; [discriminate|]. split; [intros _ e He; discriminate He|].
    split; [reflexivity|]. intros _ r Hr H. injection Hr as <-. congruence.
Qed.

(** *** [getLatestTaxRefundPrediction] *)


Lemma predictions_of_append db taxFileId row :
  TaxRefundPrediction.TaxFileID row = taxFileId ->
  filter (fun p => String.eqb (TaxRefundPrediction.TaxFileID p) taxFileId)
         (TaxRefundPredictions db ++ [row])
  = (predictions_of db taxFileId ++ [row])%list.
Proof.
  intros Hid. unfold predictions_of. rewrite filter_app. simpl.
  rewrite Hid, String.eqb_refl. reflexivity.
Qed.

(** Insert then look up: after a successful [predictRefundAvailability],
    if the clock reads strictly later than every earlier prediction of the
    file, [getLatestTaxRefundPrediction] returns the row just inserted,
    with the new uuid, the returned confidence and date, and the current
    time. *)
Theorem predict_then_latest_prediction (env : Env) (db db' : Db) (taxFileId : string)
    (r : PredictionResult.t) :
  predictRefundAvailability env taxFileId db = (Resolved (Some r), db') ->
  forallb (fun q => String.ltb (TaxRefundPrediction.CreatedAt q) (now env))
          (predictions_of db taxFileId) = true ->
  exists p,
    getLatestTaxRefundPrediction taxFileId db' = (Resolved (Some p), db') /\
    TaxRefundPrediction.PredictionID p = next_uuid env /\
    TaxRefundPrediction.ConfidenceScore p = PredictionResult.confidenceScore r /\
    TaxRefundPrediction.PredictedAvailabilityDate p = PredictionResult.predictedDate r /\
    TaxRefundPrediction.CreatedAt p = now env.
Proof.
  intros Hrun Hlater.
  destruct (predict_success_inv env db taxFileId r db' Hrun)
    as (taxFile & latest & p & _ & _ & _ & _ & _ & -> & ->).
  set (row := TaxRefundPrediction.mk (next_uuid env) taxFileId
                (PredictionResponse.confidence_score p) "v1.0"
                (PredictionResponse.predicted_date p) (input_features_of taxFile) (now env)).
  unfold getLatestTaxRefundPrediction, latest_prediction.
  assert (Hpreds : predictions_of
            (mkDb (TaxFiles db) (TaxProcessingEvents db) (TaxRefundPredictions db ++ [row]))
            taxFileId = (predictions_of db taxFileId ++ [row])%list).
  { apply predictions_of_append. reflexivity. }
  rewrite Hpreds.
  destruct (hd_error (sort_rows created_desc (predictions_of db taxFileId ++ [row])))
    as [x|] eqn:Hx.
  2:{ apply sort_rows_head_none in Hx. destruct (predictions_of db taxFileId); discriminate. }
  destruct (sort_rows_head created_desc created_desc_total created_desc_trans _ _ Hx)
    as [Hin Hmax].
  assert (x = row) as ->.
  { apply in_app_or in Hin as [Hin|[<-|[]]]; [|reflexivity].
    exfalso.
    rewrite forallb_forall in Hlater. specialize (Hlater x Hin).
    assert (Hrow : In row (predictions_of db taxFileId ++ [row])).
    { apply in_or_app. right. left. reflexivity. }
    specialize (Hmax row Hrow).
    unfold created_desc in Hmax. simpl in Hmax.
    apply string_ltb_not_leb in Hlater. congruence. }
  exists row. repeat split.
Qed.

Lemma predict_then_latest_prediction_witness :
  exists p,
    getLatestTaxRefundPrediction "tf-001"
      (snd (predictRefundAvailability env_up "tf-001" db_processing_predicted))
    = (Resolved (Some p),
       snd (predictRefundAvailability env_up "tf-001" db_processing_predicted)) /\
    TaxRefundPrediction.PredictionID p = next_uuid env_up /\
    TaxRefundPrediction.ConfidenceScore p = 85 # 100 /\
    TaxRefundPrediction.PredictedAvailabilityDate p = "2025-02-24" /\
    TaxRefundPrediction.CreatedAt p = now env_up.
Proof.
  apply (predict_then_latest_prediction env_up db_processing_predicted
           (snd (predictRefundAvailability env_up "tf-001" db_processing_predicted)) "tf-001"
           (PredictionResult.mk 14 (85 # 100) "2025-02-24")); reflexivity.
Defined.

(** *** PredictionService and RefundStatusService, edge cases *)

(** When the uuid drawn for the new row is already a [PredictionID], the
    INSERT fails and [predictRefundAvailability] resolves to [null] with the
    database unchanged, discarding the ML API's prediction. *)
Theorem predict_duplicate_id_discards (env : Env) (db : Db) (taxFileId : string)
    (taxFile : TaxFile.t) (latest : TaxProcessingEvent.t) (p : PredictionResponse.t) :
  lookup_tax_file db taxFileId = Some taxFile ->
  latest_event db taxFileId = Some latest ->
  TaxProcessingEvent.NewStatus latest = "Processing" ->
  checkMLApiHealth env = true ->
  ml_predict env (prediction_payload taxFile latest) = Some p ->
  existsb (fun q => String.eqb (TaxRefundPrediction.PredictionID q) (next_uuid env))
          (TaxRefundPredictions db) = true ->
  predictRefundAvailability env taxFileId db = (Resolved None, db).
Proof.
  intros Hf Hl Hs Hh Hp Hdup.
  rewrite (predict_processing_unfold env db taxFileId taxFile latest Hf Hl Hs), Hh, Hp.
  unfold try_catch, bind, createTaxRefundPrediction, ret. cbn [negb].
  rewrite Hdup. reflexivity.
Qed.

Lemma predict_duplicate_id_discards_witness :
  checkMLApiHealth env_up = true /\
  predictRefundAvailability env_up "tf-001" db_processing_dup = (Resolved None, db_processing_dup).
Proof.
  split; [reflexivity|].
  apply (predict_duplicate_id_discards env_up db_processing_dup "tf-001" tf1
           (ev "e2" "Processing" "2025-02-05T10:00:00Z") response_v5); reflexivity.
Defined.

(** [getRefundStatus] always resolves. It never changes [TaxFiles] or
    [TaxProcessingEvents]; it appends at most one [TaxRefundPredictions]
    row, and only when the file's latest event is ['Processing'] and the
    ML API answered. *)
Theorem getRefundStatus_effect (env : Env) (db : Db) (taxFileId : string) :
  exists r db',
    getRefundStatus env taxFileId db = (Resolved r, db') /\
    TaxFiles db' = TaxFiles db /\
    TaxProcessingEvents db' = TaxProcessingEvents db /\
    (exists added, TaxRefundPredictions db' = (TaxRefundPredictions db ++ added)%list /\
                   (length added <= 1)%nat) /\
    (TaxRefundPredictions db' <> TaxRefundPredictions db ->
     prediction_preconditions env db taxFileId).
Proof.
  pose proof (getRefundStatus_spec env db taxFileId) as Hspec.
  assert (Hsame : forall r, getRefundStatus env taxFileId db = (Resolved r, db) ->
            exists r db', getRefundStatus env taxFileId db = (Resolved r, db') /\
              TaxFiles db' = TaxFiles db /\ TaxProcessingEvents db' = TaxProcessingEvents db /\
              (exists added, TaxRefundPredictions db' = (TaxRefundPredictions db ++ added)%list /\
                             (length added <= 1)%nat) /\
              (TaxRefundPredictions db' <> TaxRefundPredictions db ->
               prediction_preconditions env db taxFileId)).
  { intros r H. exists r, db. split; [exact H|]. split; [reflexivity|]. split; [reflexivity|].
    split; [exists []; rewrite app_nil_r; split; [reflexivity|simpl; lia]|].
    intros Hne; congruence. }
  destruct (lookup_tax_file db taxFileId) as [taxFile|]; [|eauto].
  destruct (latest_event db taxFileId) as [latest|]; [|eauto].
  destruct (String.eqb (TaxProcessingEvent.NewStatus latest) "Processing").
  2:{ destruct (String.eqb (TaxProcessingEvent.NewStatus latest) "Approved"); eauto. }
  destruct (predict_cases env db taxFileId) as [Hp|(r & db' & Hp)];
    rewrite Hp in Hspec; [eauto|].
  destruct (predict_success_inv env db taxFileId r db' Hp)
    as (taxFile' & latest' & p & Hf & Hl & Hs & Hh & Hml & _ & ->).
  eexists _, _. split; [exact Hspec|]. simpl. split; [reflexivity|]. split; [reflexivity|].
  split.
  - eexists. split; [reflexivity|]. simpl. lia.
  - intros _. exists taxFile', latest', p. auto.
Qed.

(** A file that exists but has no processing events gets the status
    ['Not Found'] stamped with the current time, with no action code,
    estimate, amount or deposit date, and the database is unchanged. *)
Theorem status_without_events (env : Env) (db : Db) (taxFileId : string)
    (taxFile : TaxFile.t) :
  lookup_tax_file db taxFileId = Some taxFile ->
  events_of db taxFileId = [] ->
  getRefundStatus env taxFileId db
  = (Resolved (Some (RefundStatus.mk "Not Found"
                       (Some "No processing events found for this tax filing.")
                       (now env) None None None None None)), db).
Proof.
  intros Hf He.
  pose proof (getRefundStatus_spec env db taxFileId) as Hspec.
  rewrite Hf in Hspec.
  assert (Hl : latest_event db taxFileId = None).
  { unfold latest_event. rewrite He. reflexivity. }
  rewrite Hl in Hspec. exact Hspec.
Qed.

Lemma status_without_events_witness :
  getRefundStatus env_up "tf-001" db_no_events
  = (Resolved (Some (RefundStatus.mk "Not Found"
                       (Some "No processing events found for this tax filing.")
                       "2025-02-10T00:00:00Z" None None None None None)), db_no_events).
Proof.
  apply (status_without_events env_up db_no_events "tf-001" tf1); reflexivity.
Defined.

(** For a file in ['Processing'], the status carries the latest event's
    status, details, update time and action code, no amount or deposit
    date, and an estimate exactly when a prediction row was stored: the
    estimate's days and date are the ML API's answer for the file, and
    without it the database is unchanged. *)
Theorem processing_status_estimate (env : Env) (db : Db) (taxFileId : string)
    (taxFile : TaxFile.t) (latest : TaxProcessingEvent.t) :
  lookup_tax_file db taxFileId = Some taxFile ->
  latest_event db taxFileId = Some latest ->
  TaxProcessingEvent.NewStatus latest = "Processing" ->
  exists st db',
    getRefundStatus env taxFileId db = (Resolved (Some st), db') /\
    RefundStatus.status st = "Processing" /\
    RefundStatus.details st = Some (TaxProcessingEvent.StatusDetails latest) /\
    RefundStatus.lastUpdated st = TaxProcessingEvent.StatusUpdateDate latest /\
    RefundStatus.actionRequired st = TaxProcessingEvent.ActionRequired latest /\
    RefundStatus.refundAmount st = None /\
    RefundStatus.depositDate st = None /\
    ((RefundStatus.estimatedCompletionDays st = None /\
      RefundStatus.estimatedCompletionDate st = None /\ db' = db) \/
     (exists p,
        checkMLApiHealth env = true /\
        ml_predict env (prediction_payload taxFile latest) = Some p /\
        RefundStatus.estimatedCompletionDays st = Some (PredictionResponse.estimated_days p) /\
        RefundStatus.estimatedCompletionDate st = Some (PredictionResponse.predicted_date p) /\
        length (TaxRefundPredictions db') = S (length (TaxRefundPredictions db)))).
Proof.
  intros Hf Hl Hs.
  pose proof (getRefundStatus_spec env db taxFileId) as Hspec.
  rewrite Hf, Hl, Hs in Hspec. cbn [String.eqb Ascii.eqb Bool.eqb andb] in Hspec.
  destruct (predict_cases env db taxFileId) as [Hp|(r & db' & Hp)];
    rewrite Hp in Hspec.
  - eexists _, _. split; [exact Hspec|]. simpl. rewrite Hs. repeat split. left; auto.
  - destruct (predict_success_inv env db taxFileId r db' Hp)
      as (taxFile' & latest' & p & Hf' & Hl' & _ & Hh & Hml & -> & ->).
    rewrite Hf in Hf'. injection Hf' as <-. rewrite Hl in Hl'. injection Hl' as <-.
    eexists _, _. split; [exact Hspec|]. simpl. rewrite Hs. repeat split.
    right. exists p. repeat split; auto.
    rewrite length_app. simpl. lia.
Qed.

Lemma processing_status_estimate_witness :
  exists st db',
    getRefundStatus env_up "tf-001" db_processing = (Resolved (Some st), db') /\
    RefundStatus.status st = "Processing" /\
    RefundStatus.details st = Some "details" /\
    RefundStatus.lastUpdated st = "2025-02-05T10:00:00Z" /\
    RefundStatus.actionRequired st = None /\
    RefundStatus.refundAmount st = None /\
    RefundStatus.depositDate st = None /\
    ((RefundStatus.estimatedCompletionDays st = None /\
      RefundStatus.estimatedCompletionDate st = None /\ db' = db_processing) \/
     (exists p,
        checkMLApiHealth env_up = true /\
        ml_predict env_up (prediction_payload tf1 (ev "e2" "Processing" "2025-02-05T10:00:00Z"))
          = Some p /\
        RefundStatus.estimatedCompletionDays st = Some (PredictionResponse.estimated_days p) /\
        RefundStatus.estimatedCompletionDate st = Some (PredictionResponse.predicted_date p) /\
        length (TaxRefundPredictions db') = S (length (TaxRefundPredictions db_processing)))).
Proof.
  apply (processing_status_estimate env_up db_processing "tf-001" tf1
           (ev "e2" "Processing" "2025-02-05T10:00:00Z")); reflexivity.
Defined.

(** For any latest status other than ['Processing'] and ['Approved'] (for
    example ['Needs Action']), the status is the latest event's status,
    details, update time and action code with nothing added, and the
    database is unchanged. *)
Theorem other_status_as_recorded (env : Env) (db : Db) (taxFileId : string)
    (taxFile : TaxFile.t) (latest : TaxProcessingEvent.t) :
  lookup_tax_file db taxFileId = Some taxFile ->
  latest_event db taxFileId = Some latest ->
  TaxProcessingEvent.NewStatus latest <> "Processing" ->
  TaxProcessingEvent.NewStatus latest <> "Approved" ->
  getRefundStatus env taxFileId db
  = (Resolved (Some (RefundStatus.mk (TaxProcessingEvent.NewStatus latest)
                       (Some (TaxProcessingEvent.StatusDetails latest))
                       (TaxProcessingEvent.StatusUpdateDate latest)
                       (TaxProcessingEvent.ActionRequired latest)
                       None None None None)), db).
Proof.
  intros Hf Hl Hp Ha.
  pose proof (getRefundStatus_spec env db taxFileId) as Hspec.
  rewrite Hf, Hl in Hspec.
  apply String.eqb_neq in Hp, Ha. rewrite Hp, Ha in Hspec. exact Hspec.
Qed.

Lemma other_status_as_recorded_witness :
  getRefundStatus env_up "tf-001" db_needs_action
  = (Resolved (Some (RefundStatus.mk "Needs Action" (Some "details") "2025-02-12T08:00:00Z"
                       (Some "CP05") None None None None)), db_needs_action).
Proof.
  apply (other_status_as_recorded env_up db_needs_action "tf-001" tf1 ev_needs_action);
    [reflexivity | reflexivity | discriminate | discriminate].
Defined.

(** [s.split('T')[0]], the deposit date: a prefix of [s] with no ['T'],
    followed in [s] by nothing or by a ['T']; a string without ['T'] is
    kept whole. *)
Theorem split_first_prefix (c : ascii) (s : string) :
  exists rest,
    s = (split_first c s ++ rest)%string /\
    ~ In c (list_ascii_of_string (split_first c s)) /\
    (rest = EmptyString \/ exists tl, rest = String c tl).
Proof.
  induction s as [|x s IH]; simpl.
  - exists EmptyString. split; [reflexivity|]. split; [simpl; tauto|]. left; reflexivity.
  - destruct (Ascii.eqb_spec x c) as [->|Hne].
    + exists (String c s). split; [reflexivity|]. split; [simpl; tauto|].
      right. exists s. reflexivity.
    + destruct IH as (rest & Heq & Hno & Hrest).
      exists rest. split; [simpl; rewrite <- Heq; reflexivity|].
      split; [|exact Hrest].
      simpl. intros [H|H]; [congruence|contradiction].
Qed.

(** *** The action-guidance handler *)

(** POST [/refund-status/:taxFileId/action-guidance] answers 200 only for a
    file whose latest event is ['Needs Action'] with a non-empty action
    code; the guidance service was then asked with that code, the file id
    and the caller's context, its answer is the body, and the database is
    unchanged. *)
Theorem guidance_requires_action_code (env : Env) (guide : GuidanceService) (db db' : Db)
    (taxFileId : string) (userContext : option UserContext.t) (resp : Response) :
  RefundStatusController.getActionGuidance env guide taxFileId userContext db
    = (Resolved resp, db') ->
  code resp = 200%Z ->
  exists taxFile latest actionCode g,
    lookup_tax_file db taxFileId = Some taxFile /\
    latest_event db taxFileId = Some latest /\
    TaxProcessingEvent.NewStatus latest = "Needs Action" /\
    TaxProcessingEvent.ActionRequired latest = Some actionCode /\
    actionCode <> "" /\
    guide (ActionGuidanceRequest.mk actionCode taxFileId userContext) = Some g /\
    resp = mkResponse 200 (GuidanceBody g) /\
    db' = db.
Proof.
  intros Hrun Hcode.
  unfold RefundStatusController.getActionGuidance, try_catch, bind, respond, ret,
    internal_error, throw in Hrun.
  destruct (falsy taxFileId).
  { injection Hrun as <- _. discriminate Hcode. }
  pose proof (getRefundStatus_spec env db taxFileId) as Hspec.
  destruct (lookup_tax_file db taxFileId) as [taxFile|] eqn:Hf.
  2:{ rewrite Hspec in Hrun. injection Hrun as <- _. discriminate Hcode. }
  destruct (latest_event db taxFileId) as [latest|] eqn:Hl.
  2:{ rewrite Hspec in Hrun. injection Hrun as <- _. discriminate Hcode. }
  destruct (String.eqb_spec (TaxProcessingEvent.NewStatus latest) "Processing") as [Hp|Hp].
  - destruct (predict_cases env db taxFileId) as [Hq|(r & db1 & Hq)];
      rewrite Hq in Hspec; rewrite Hspec in Hrun; simpl in Hrun; rewrite Hp in Hrun;
      simpl in Hrun; injection Hrun as <- _; discriminate Hcode.
  - destruct (String.eqb_spec (TaxProcessingEvent.NewStatus latest) "Approved") as [Ha|Ha].
    + rewrite Hspec in Hrun. simpl in Hrun. rewrite Ha in Hrun. simpl in Hrun.
      injection Hrun as <- _. discriminate Hcode.
    + rewrite Hspec in Hrun. simpl in Hrun.
      destruct (String.eqb_spec (TaxProcessingEvent.NewStatus latest) "Needs Action") as [Hn|Hn].
      2:{ injection Hrun as <- _. discriminate Hcode. }
      destruct (TaxProcessingEvent.ActionRequired latest) as [c|] eqn:Hc.
      2:{ injection Hrun as <- _. discriminate Hcode. }
      simpl in Hrun. unfold falsy in Hrun.
      destruct (String.eqb_spec c "") as [He|He].
      { injection Hrun as <- _. discriminate Hcode. }
      destruct (guide (ActionGuidanceRequest.mk c taxFileId userContext)) as [g|] eqn:Hg.
      2:{ injection Hrun as <- _. discriminate Hcode. }
      injection Hrun as <- <-.
      exists taxFile, latest, c, g. repeat split; auto.
Qed.

Lemma guidance_requires_action_code_witness :
  exists taxFile latest actionCode g,
    lookup_tax_file db_needs_action "tf-001" = Some taxFile /\
    latest_event db_needs_action "tf-001" = Some latest /\
    TaxProcessingEvent.NewStatus latest = "Needs Action" /\
    TaxProcessingEvent.ActionRequired latest = Some actionCode /\
    actionCode <> "" /\
    guide_ok (ActionGuidanceRequest.mk actionCode "tf-001" None) = Some g /\
    mkResponse 200 (GuidanceBody guidance_sample) = mkResponse 200 (GuidanceBody g) /\
    db_needs_action = db_needs_action.
Proof.
  apply (guidance_requires_action_code env_up guide_ok db_needs_action db_needs_action
           "tf-001" None (mkResponse 200 (GuidanceBody guidance_sample)));
    reflexivity.
Defined.

(** When the file's latest status is not ['Needs Action'], or its action
    code is [null] or empty, the handler answers 400 whatever the guidance
    service would say, so that service is not used. *)
Theorem guidance_refused_without_action (env : Env) (db : Db) (taxFileId : string)
    (userContext : option UserContext.t) (taxFile : TaxFile.t)
    (latest : TaxProcessingEvent.t) :
  falsy taxFileId = false ->
  lookup_tax_file db taxFileId = Some taxFile ->
  latest_event db taxFileId = Some latest ->
  TaxProcessingEvent.NewStatus latest <> "Needs Action" \/
  TaxProcessingEvent.ActionRequired latest = None \/
  TaxProcessingEvent.ActionRequired latest = Some "" ->
  exists db', forall guide : GuidanceService,
    RefundStatusController.getActionGuidance env guide taxFileId userContext db
    = (Resolved (mkResponse 400
         (ErrorBody "This tax filing does not require action or has no action code")), db').
Proof.
  intros Hid Hf Hl Hcond.
  pose proof (getRefundStatus_spec env db taxFileId) as Hspec.
  rewrite Hf, Hl in Hspec.
  assert (Hst : exists st db',
            getRefundStatus env taxFileId db = (Resolved (Some st), db') /\
            RefundStatus.status st = TaxProcessingEvent.NewStatus latest /\
            RefundStatus.actionRequired st = TaxProcessingEvent.ActionRequired latest).
  { destruct (String.eqb (TaxProcessingEvent.NewStatus latest) "Processing").
    - destruct (predict_cases env db taxFileId) as [Hq|(r & db1 & Hq)];
        rewrite Hq in Hspec; eauto.
    - destruct (String.eqb (TaxProcessingEvent.NewStatus latest) "Approved"); eauto. }
  destruct Hst as (st & db' & Hrun & Hstatus & Haction).
  exists db'. intros guide.
  unfold RefundStatusController.getActionGuidance, try_catch, bind, respond, ret.
  rewrite Hid, Hrun. cbn beta iota. rewrite Hstatus, Haction.
  destruct Hcond as [Hn|[Hn|Hn]].
  - apply String.eqb_neq in Hn. rewrite Hn. reflexivity.
  - rewrite Hn. destruct (String.eqb (TaxProcessingEvent.NewStatus latest) "Needs Action"); reflexivity.
  - rewrite Hn. destruct (String.eqb (TaxProcessingEvent.NewStatus latest) "Needs Action"); reflexivity.
Qed.

Lemma guidance_refused_without_action_witness :
  exists db', forall guide : GuidanceService,
    RefundStatusController.getActionGuidance env_up guide "tf-001" None db_approved
    = (Resolved (mkResponse 400
         (ErrorBody "This tax filing does not require action or has no action code")), db').
Proof.
  apply (guidance_refused_without_action env_up db_approved "tf-001" None tf1
           (ev "e3" "Approved" "2025-02-26T12:00:00Z")); try reflexivity.
  left. discriminate.
Defined.

(** Asking for guidance on a file in ['Processing'] is refused with 400,
    yet the status lookup behind it has already run a prediction: with the
    ML API answering and a fresh uuid, a [TaxRefundPredictions] row for the
    file, stamped with the current time, is stored. *)
Theorem guidance_on_processing_stores_prediction (env : Env) (guide : GuidanceService)
    (db : Db) (taxFileId : string) (userContext : option UserContext.t)
    (taxFile : TaxFile.t) (latest : TaxProcessingEvent.t) (p : PredictionResponse.t) :
  falsy taxFileId = false ->
  lookup_tax_file db taxFileId = Some taxFile ->
  latest_event db taxFileId = Some latest ->
  TaxProcessingEvent.NewStatus latest = "Processing" ->
  checkMLApiHealth env = true ->
  ml_predict env (prediction_payload taxFile latest) = Some p ->
  existsb (fun q => String.eqb (TaxRefundPrediction.PredictionID q) (next_uuid env))
          (TaxRefundPredictions db) = false ->
  exists row,
    RefundStatusController.getActionGuidance env guide taxFileId userContext db
    = (Resolved (mkResponse 400
         (ErrorBody "This tax filing does not require action or has no action code")),
       mkDb (TaxFiles db) (TaxProcessingEvents db) (TaxRefundPredictions db ++ [row])) /\
    TaxRefundPrediction.TaxFileID row = taxFileId /\
    TaxRefundPrediction.CreatedAt row = now env.
Proof.
  intros Hid Hf Hl Hs Hh Hp Hfresh.
  pose proof (getRefundStatus_spec env db taxFileId) as Hspec.
  rewrite Hf, Hl, Hs in Hspec. cbn [String.eqb Ascii.eqb Bool.eqb andb] in Hspec.
  rewrite (predict_processing_unfold env db taxFileId taxFile latest Hf Hl Hs), Hh, Hp
    in Hspec.
  unfold try_catch, bind, createTaxRefundPrediction, ret in Hspec.
  cbn [negb] in Hspec. rewrite Hfresh in Hspec.
  eexists. split.
  - unfold RefundStatusController.getActionGuidance, try_catch, bind, respond, ret.
    rewrite Hid, Hspec. simpl. rewrite Hs. reflexivity.
  - split; reflexivity.
Qed.

Lemma guidance_on_processing_stores_prediction_witness :
  exists row,
    RefundStatusController.getActionGuidance env_up guide_ok "tf-001" None db_processing
    = (Resolved (mkResponse 400
         (ErrorBody "This tax filing does not require action or has no action code")),
       mkDb (TaxFiles db_processing) (TaxProcessingEvents db_processing)
            (TaxRefundPredictions db_processing ++ [row])) /\
    TaxRefundPrediction.TaxFileID row = "tf-001" /\
    TaxRefundPrediction.CreatedAt row = now env_up.
Proof.
  apply (guidance_on_processing_stores_prediction env_up guide_ok db_processing "tf-001" None
           tf1 (ev "e2" "Processing" "2025-02-05T10:00:00Z") response_v5); reflexivity.
Defined.

(** When the guidance service fails for a file that does need action, the
    handler answers 500 with ['Internal server error'] and the database is
    unchanged. *)
Theorem guidance_failure_is_500 (env : Env) (guide : GuidanceService) (db : Db)
    (taxFileId : string) (userContext : option UserContext.t) (taxFile : TaxFile.t)
    (latest : TaxProcessingEvent.t) (actionCode : string) :
  falsy taxFileId = false ->
  lookup_tax_file db taxFileId = Some taxFile ->
  latest_event db taxFileId = Some latest ->
  TaxProcessingEvent.NewStatus latest = "Needs Action" ->
  TaxProcessingEvent.ActionRequired latest = Some actionCode ->
  falsy actionCode = false ->
  guide (ActionGuidanceRequest.mk actionCode taxFileId userContext) = None ->
  RefundStatusController.getActionGuidance env guide taxFileId userContext db
  = (Resolved (mkResponse 500 (ErrorBody "Internal server error")), db).
Proof.
  intros Hid Hf Hl Hs Hc Hcf Hg.
  assert (Hrun : getRefundStatus env taxFileId db = (Resolved (Some (base_status latest)), db)).
  { pose proof (getRefundStatus_spec env db taxFileId) as Hspec.
    rewrite Hf, Hl, Hs in Hspec. exact Hspec. }
  unfold RefundStatusController.getActionGuidance, try_catch, bind, respond, ret,
    internal_error, throw.
  rewrite Hid, Hrun. simpl. rewrite Hs, Hc. simpl. rewrite Hcf, Hg. reflexivity.
Qed.

Lemma guidance_failure_is_500_witness :
  RefundStatusController.getActionGuidance env_up guide_down "tf-001" None db_needs_action
  = (Resolved (mkResponse 500 (ErrorBody "Internal server error")), db_needs_action).
Proof.
  apply (guidance_failure_is_500 env_up guide_down db_needs_action "tf-001" None tf1
           ev_needs_action "CP05"); reflexivity.
Defined.

(** *** [getIRSTransitionEstimates] *)


Example tax_filings_example :
  fst (RefundStatusController.getTaxFilings users "user-001" db_files)
  = Resolved (mkResponse 200 (FilingsBody [tf1; tf2])).
Proof. reflexivity. Qed.

Example tax_filings_missing_table_example :
  fst (RefundStatusController.getTaxFilings users_missing "user-001" db_files)
  = Resolved (mkResponse 500 (ErrorBody "Internal server error")).
Proof. reflexivity. Qed.
